(** * Storage account encryption settings: the resource's CRUD and import
    functions (package [storage], resource
    [azurerm_storage_account_encryption_settings]).

    The Go functions are embedded as functions over an explicit world (an
    allocation counter for the [*string] values made by [utils.String], and
    the log of remote calls issued so far).  The remote collaborators (key
    vault resolver, storage accounts client) are oracles carried by the
    [Client] record, as the Go code receives them through [meta]. *)

From stdpp Require Import base option list gmap strings.

Local Open Scope string_scope.
Local Open Scope list_scope.

(** ** Go values shared by the packages involved *)

(** Go's [error]: either a value handed back by a collaborator, or the result
    of [fmt.Errorf], kept as its format string and its arguments (a string
    argument printed with [%q] or [%s], an error printed with [%+v]). *)
Inductive error : Type :=
| CollaboratorError (msg : string)
| Errorf (format : string) (args : list fmtArg)
with fmtArg : Type :=
| ArgString (s : string)
| ArgError (e : error).

(** A Go function returning [(T, error)] where exactly one side is set. *)
Inductive result (A : Type) : Type :=
| OK (a : A)
| Err (e : error).
Arguments OK {A} a.
Arguments Err {A} e.

(** A [*string]: [None] is [nil]; a non-nil pointer is its address together
    with the string it points to (the strings are never written through the
    pointer in this package).  Go's [==] on pointers compares addresses. *)
Record StringCell : Type := mkCell { addr : nat; target : string }.

Definition pstring : Type := option StringCell.

Definition ptr_eqb (p q : pstring) : bool :=
  match p, q with
  | None, None => true
  | Some a, Some b => Nat.eqb (addr a) (addr b)
  | _, _ => false
  end.

(** The string a pointer leads to, if it is not nil. *)
Definition deref (p : pstring) : option string := target <$> p.

(** ** The SDK's wire types (package [storage] of the Azure SDK) *)

Inductive KeySource : Type :=
| MicrosoftKeyvault
| MicrosoftStorage.

Record EncryptionService : Type := mkEncryptionService { Enabled : bool }.

Record EncryptionServices : Type := mkEncryptionServices {
  Blob : option EncryptionService;
  File : option EncryptionService
}.

Record KeyVaultProperties : Type := mkKeyVaultProperties {
  KeyName : pstring;
  KeyVersion : pstring;
  KeyVaultURI : pstring
}.

Record Encryption : Type := mkEncryption {
  Services : option EncryptionServices;
  Encryption_KeySource : KeySource;
  Encryption_KeyVaultProperties : option KeyVaultProperties
}.

Record AccountPropertiesUpdateParameters : Type := mkAccountPropertiesUpdateParameters {
  Update_Encryption : option Encryption
}.

Record AccountUpdateParameters : Type := mkAccountUpdateParameters {
  Update_Properties : option AccountPropertiesUpdateParameters
}.

Record AccountProperties : Type := mkAccountProperties {
  Props_Encryption : option Encryption
}.

(** The result of [GetProperties]: the embedded HTTP response (its status
    code, [None] when the response pointer is nil) and the account's
    properties. *)
Record Account : Type := mkAccount {
  Response : option nat;
  Account_Properties : option AccountProperties
}.

(** [opts.Encryption.f = ...]: assignment through the embedded pointers. *)
Definition modify_Encryption (f : Encryption -> Encryption)
    (opts : AccountUpdateParameters) : AccountUpdateParameters :=
  mkAccountUpdateParameters
    ((fun p => mkAccountPropertiesUpdateParameters (f <$> Update_Encryption p))
       <$> Update_Properties opts).

(** [opts.Encryption], [nil] when a pointer on the way is nil. *)
Definition opts_Encryption (opts : AccountUpdateParameters) : option Encryption :=
  p ← Update_Properties opts; Update_Encryption p.

(** ** Helpers of the provider that live outside this package *)

(** Modelled from the spec: [utils.ResponseWasNotFound] (package [utils]) is
    not part of the sources at hand; the specification's "remote reports
    not-found" is an HTTP response that is present and has status 404. *)
Definition utils_ResponseWasNotFound (resp : option nat) : bool :=
  match resp with
  | Some code => Nat.eqb code 404
  | None => false
  end.

(** [azure.ResourceID], the parts this package reads. *)
Record ResourceID : Type := mkResourceID {
  SubscriptionID : string;
  ResourceGroup : string;
  Provider : string;
  Path : gmap string string
}.

(** [id.Path[k]]: a missing key reads as the empty string. *)
Definition Path_at (id : ResourceID) (k : string) : string :=
  default "" (Path id !! k).

(** ** The schema's resource data *)

Record KeyVaultBlock : Type := mkKeyVaultBlock {
  key_vault_policy_id : string;
  key_vault_id : string;
  key_name : string;
  key_version : string;
  key_vault_uri : string
}.

(** [*schema.ResourceData] for this resource's schema: the resource id and the
    two top-level attributes, [key_vault] being the list of at most one
    block. *)
Record ResourceData : Type := mkResourceData {
  Id : string;
  storage_account_id : string;
  key_vault : list KeyVaultBlock
}.

(** Values passed to [d.Set]. *)
Inductive value : Type :=
| VString (s : string)
| VBool (b : bool)
| VList (l : list (gmap string string)).

Definition SetId (d : ResourceData) (v : string) : ResourceData :=
  mkResourceData v (storage_account_id d) (key_vault d).

(** Writing a block from a map: every field of the block's schema is written,
    a key missing from the map as the zero value. *)
Definition block_of_map (m : gmap string string) : KeyVaultBlock :=
  {| key_vault_policy_id := default "" (m !! "key_vault_policy_id");
     key_vault_id := default "" (m !! "key_vault_id");
     key_name := default "" (m !! "key_name");
     key_version := default "" (m !! "key_version");
     key_vault_uri := default "" (m !! "key_vault_uri") |}.

(** [d.Set(key, v)]: a key that is not in the schema is refused with an error
    and nothing is written. *)
Definition Set_ (d : ResourceData) (key : string) (v : value)
    : ResourceData * option error :=
  if String.eqb key "storage_account_id" then
    match v with
    | VString s => (mkResourceData (Id d) s (key_vault d), None)
    | _ => (d, Some (CollaboratorError "storage_account_id: expected a string"))
    end
  else if String.eqb key "key_vault" then
    match v with
    | VList l => (mkResourceData (Id d) (storage_account_id d) (block_of_map <$> l), None)
    | _ => (d, Some (CollaboratorError "key_vault: expected a list"))
    end
  else (d, Some (Errorf "Invalid address to set: %#v" [ArgString key])).

(** [d.Get("key_vault.0.<field>").(string)]: the zero value when the list has
    no element. *)
Definition Get_key_vault_0 (f : KeyVaultBlock -> string) (d : ResourceData) : string :=
  match key_vault d with
  | [] => ""
  | b :: _ => f b
  end.

(** [d.GetOk(...)]: the value, and whether it is set to a non-zero value. *)
Definition GetOk_key_vault_0 (f : KeyVaultBlock -> string) (d : ResourceData)
    : string * bool :=
  let v := Get_key_vault_0 f d in
  (v, negb (String.eqb v "")).

(** ** The world: allocation and remote calls *)

(** The calls that reach a remote service.  The accounts client of the SDK
    also offers [Create] and [Delete]; they are part of the log's alphabet so
    that their absence from a run can be stated. *)
Inductive RemoteCall : Type :=
| VaultBaseUrl (keyVaultId : string)
| AccountsUpdate (resourceGroupName accountName : string) (opts : AccountUpdateParameters)
| AccountsGetProperties (resourceGroupName accountName expand : string)
| AccountsCreate (resourceGroupName accountName : string)
| AccountsDelete (resourceGroupName accountName : string).

Record World : Type := mkWorld {
  next_addr : nat;
  calls : list RemoteCall
}.

Definition M (A : Type) : Type := World -> A * World.

Definition ret {A} (a : A) : M A := fun w => (a, w).

Definition bind {A B} (m : M A) (k : A -> M B) : M B :=
  fun w => let (a, w') := m w in k a w'.

Notation "'let*' x ':=' m 'in' k" := (bind m (fun x => k))
  (at level 10, x pattern, m at level 100, k at level 200).

Definition remote (c : RemoteCall) : M unit :=
  fun w => (tt, mkWorld (next_addr w) (calls w ++ [c])).

(** [utils.String(s)] (package [utils], outside the sources at hand): the
    address of a fresh copy of [s], as [func String(s string) *string]
    must give. *)
Definition utils_String (s : string) : M pstring :=
  fun w => (Some (mkCell (next_addr w) s), mkWorld (S (next_addr w)) (calls w)).

(** The collaborators reached through [meta], the provider's client. *)
Record Client : Type := mkClient {
  KeyVault_baseUrl : string -> result string;
  Storage_Update : string -> string -> AccountUpdateParameters -> option error;
  Storage_GetProperties : string -> string -> string -> Account * option error
}.

(** Modelled from the spec: [azure.GetKeyVaultBaseUrlFromID] (package
    [helpers/azure]) is not part of the sources at hand; the specification
    describes it as the remote key-vault resolver, one remote lookup from the
    vault's identifier to its base URI or an error. *)
Definition azure_GetKeyVaultBaseUrlFromID (meta : Client) (keyVaultId : string)
    : M (result string) :=
  let* _ := remote (VaultBaseUrl keyVaultId) in
  ret (KeyVault_baseUrl meta keyVaultId).

(** [storageClient.Update(ctx, group, name, opts)], its first result dropped. *)
Definition storageClient_Update (meta : Client) (g n : string)
    (opts : AccountUpdateParameters) : M (option error) :=
  let* _ := remote (AccountsUpdate g n opts) in
  ret (Storage_Update meta g n opts).

(** [storageClient.GetProperties(ctx, group, name, expand)]. *)
Definition storageClient_GetProperties (meta : Client) (g n e : string)
    : M (Account * option error) :=
  let* _ := remote (AccountsGetProperties g n e) in
  ret (Storage_GetProperties meta g n e).

(** ** The resource's functions *)

(** The update object with the default values, as [CreateUpdate] builds it. *)
Definition defaultUpdateParameters : AccountUpdateParameters :=
  mkAccountUpdateParameters (Some (mkAccountPropertiesUpdateParameters (Some
    {| Services := Some {| Blob := Some {| Enabled := true |};
                           File := Some {| Enabled := true |} |};
       Encryption_KeySource := MicrosoftStorage;
       Encryption_KeyVaultProperties := Some (mkKeyVaultProperties None None None) |}))).

(** The update object [Delete] sends. *)
Definition revertUpdateParameters : AccountUpdateParameters :=
  mkAccountUpdateParameters (Some (mkAccountPropertiesUpdateParameters (Some
    {| Services := None;
       Encryption_KeySource := MicrosoftStorage;
       Encryption_KeyVaultProperties := None |}))).

Definition expandAzureRmStorageAccountKeyVaultProperties (d : ResourceData)
    : M KeyVaultProperties :=
  match key_vault d with
  | [] => ret (mkKeyVaultProperties None None None)
  | v :: _ =>
      let keyName := key_name v in
      let keyVersion := key_version v in
      let* pName := utils_String keyName in
      let* pVersion := utils_String keyVersion in
      ret {| KeyName := pName; KeyVersion := pVersion; KeyVaultURI := None |}
  end.

Definition flattenAzureRmStorageAccountKeyVaultProperties
    (keyVaultProperties : option KeyVaultProperties)
    (keyVaultId keyVaultPolicyId : string) : list (gmap string string) :=
  match keyVaultProperties with
  | None => []
  | Some kvp =>
      let result : gmap string string := ∅ in
      let result :=
        if negb (String.eqb keyVaultId "")
        then <["key_vault_id" := keyVaultId]> result else result in
      let result :=
        if negb (String.eqb keyVaultPolicyId "")
        then <["key_vault_policy_id" := keyVaultPolicyId]> result else result in
      let result :=
        match KeyName kvp with
        | Some c => <["key_name" := target c]> result
        | None => result
        end in
      let result :=
        match KeyVersion kvp with
        | Some c => <["key_version" := target c]> result
        | None => result
        end in
      let result :=
        match KeyVaultURI kvp with
        | Some c => <["key_vault_uri" := target c]> result
        | None => result
        end in
      [result]
  end.

Section Resource.

(** [azure.ParseAzureResourceID], from the provider's helpers. *)
Variable ParseAzureResourceID : string -> result ResourceID.

Definition resourceArmStorageAccountEncryptionSettingsRead
    (d : ResourceData) (meta : Client) : M (ResourceData * option error) :=
  let storageAccountId := storage_account_id d in
  match ParseAzureResourceID storageAccountId with
  | Err err => ret (d, Some err)
  | OK id =>
      let name := Path_at id "storageAccounts" in
      let resGroup := ResourceGroup id in
      let* (resp, err) := storageClient_GetProperties meta resGroup name "" in
      match err with
      | Some err =>
          if utils_ResponseWasNotFound (Response resp)
          then ret (SetId d "", None)
          else ret (d, Some (Errorf
                 "Error reading the state of AzureRM Storage Account %q: %+v"
                 [ArgString name; ArgError err]))
      | None =>
          match Account_Properties resp with
          | None => ret (d, None)
          | Some props =>
              match Props_Encryption props with
              | None => ret (d, None)
              | Some encryption =>
                  let d :=
                    match Services encryption with
                    | None => d
                    | Some services =>
                        let d :=
                          match Blob services with
                          | Some blob =>
                              fst (Set_ d "enable_blob_encryption" (VBool (Enabled blob)))
                          | None => d
                          end in
                        match File services with
                        | Some file =>
                            fst (Set_ d "enable_file_encryption" (VBool (Enabled file)))
                        | None => d
                        end
                    end in
                  match Encryption_KeyVaultProperties encryption with
                  | None => ret (d, None)
                  | Some keyVaultProperties =>
                      let keyVaultId := Get_key_vault_0 key_vault_id d in
                      let keyVaultPolicyId := Get_key_vault_0 key_vault_policy_id d in
                      match Set_ d "key_vault"
                              (VList (flattenAzureRmStorageAccountKeyVaultProperties
                                        (Some keyVaultProperties) keyVaultId keyVaultPolicyId)) with
                      | (d, Some err) =>
                          ret (d, Some (Errorf
                                 "Error flattening `key_vault_properties`: %+v"
                                 [ArgError err]))
                      | (d, None) => ret (d, None)
                      end
                  end
              end
          end
      end
  end.

Definition resourceArmStorageAccountEncryptionSettingsCreateUpdate
    (d : ResourceData) (meta : Client) : M (ResourceData * option error) :=
  let storageAccountId := storage_account_id d in
  match ParseAzureResourceID storageAccountId with
  | Err err => ret (d, Some err)
  | OK id =>
      let storageAccountName := Path_at id "storageAccounts" in
      let resourceGroupName := ResourceGroup id in
      let opts := defaultUpdateParameters in
      let* keyVaultProperties := expandAzureRmStorageAccountKeyVaultProperties d in
      let* empty := utils_String "" in
      let* built :=
        if negb (ptr_eqb (KeyName keyVaultProperties) empty) then
          match GetOk_key_vault_0 key_vault_id d with
          | (keyVaultId, true) =>
              let* looked := azure_GetKeyVaultBaseUrlFromID meta keyVaultId in
              match looked with
              | Err err =>
                  ret (Err (Errorf "Error looking up Key Vault URI from id %q: %+v"
                              [ArgString keyVaultId; ArgError err]))
              | OK pKeyVaultBaseUrl =>
                  let* pUri := utils_String pKeyVaultBaseUrl in
                  let keyVaultProperties :=
                    {| KeyName := KeyName keyVaultProperties;
                       KeyVersion := KeyVersion keyVaultProperties;
                       KeyVaultURI := pUri |} in
                  let opts :=
                    modify_Encryption (fun e =>
                      {| Services := Services e;
                         Encryption_KeySource := Encryption_KeySource e;
                         Encryption_KeyVaultProperties := Some keyVaultProperties |}) opts in
                  let opts :=
                    modify_Encryption (fun e =>
                      {| Services := Services e;
                         Encryption_KeySource := MicrosoftKeyvault;
                         Encryption_KeyVaultProperties := Encryption_KeyVaultProperties e |}) opts in
                  ret (OK opts)
              end
          | (_, false) => ret (OK opts)
          end
        else ret (OK opts) in
      match built with
      | Err err => ret (d, Some err)
      | OK opts =>
          let* err := storageClient_Update meta resourceGroupName storageAccountName opts in
          match err with
          | Some err =>
              ret (d, Some (Errorf "Error updating Azure Storage Account Encryption %q: %+v"
                              [ArgString storageAccountName; ArgError err]))
          | None =>
              let resourceId := storageAccountId +:+ "/encryptionSettings" in
              let d := SetId d resourceId in
              resourceArmStorageAccountEncryptionSettingsRead d meta
          end
      end
  end.

Definition resourceArmStorageAccountEncryptionSettingsDelete
    (d : ResourceData) (meta : Client) : M (ResourceData * option error) :=
  let storageAccountId := storage_account_id d in
  match ParseAzureResourceID storageAccountId with
  | Err err => ret (d, Some err)
  | OK id =>
      let storageAccountName := Path_at id "storageAccounts" in
      let resourceGroupName := ResourceGroup id in
      let opts := revertUpdateParameters in
      let* err := storageClient_Update meta resourceGroupName storageAccountName opts in
      match err with
      | Some err =>
          ret (d, Some (Errorf "Error updating Azure Storage Account Encryption %q: %+v"
                          [ArgString storageAccountName; ArgError err]))
      | None => ret (d, None)
      end
  end.

(** The import function returns the list of imported resources ([None] for a
    nil slice) and an error; the resource data it was given is returned too,
    since it is written before the first return. *)
Definition resourceArmStorageAccountEncryptionSettingsImportState
    (d : ResourceData) (meta : Client)
    : M (ResourceData * option (list ResourceData) * option error) :=
  let id := Id d in
  let d := fst (Set_ d "storage_account_id" (VString id)) in
  match ParseAzureResourceID id with
  | Err err => ret (d, None, Some err)
  | OK saId =>
      let name := Path_at saId "storageAccounts" in
      let resGroup := ResourceGroup saId in
      let* (resp, err) := storageClient_GetProperties meta resGroup name "" in
      match err with
      | Some err =>
          if utils_ResponseWasNotFound (Response resp)
          then ret (SetId d "", None, None)
          else ret (d, None, Some (Errorf
                 "Error importing the state of AzureRM Storage Account %q: %+v"
                 [ArgString name; ArgError err]))
      | None =>
          let flattened :=
            match Account_Properties resp with
            | None => (d, None)
            | Some props =>
                match Props_Encryption props with
                | None => (d, None)
                | Some encryption =>
                    match Encryption_KeyVaultProperties encryption with
                    | None => (d, None)
                    | Some keyVaultProperties =>
                        Set_ d "key_vault"
                          (VList (flattenAzureRmStorageAccountKeyVaultProperties
                                    (Some keyVaultProperties) "" ""))
                    end
                end
            end in
          match flattened with
          | (d, Some err) =>
              ret (d, None, Some (Errorf
                     "Error flattening `key_vault_properties` on import: %+v"
                     [ArgError err]))
          | (d, None) =>
              let resourceId := id +:+ "/encryptionSettings" in
              let d := SetId d resourceId in
              ret (d, Some [d], None)
          end
      end
  end.

End Resource.

(** ** Observations on a run *)

(** The remote calls a computation adds to the log, oldest first. *)
Definition issued {A} (m : M A) (w : World) : list RemoteCall :=
  drop (length (calls w)) (calls (snd (m w))).

(** The payloads of the update calls in a log. *)
Fixpoint update_payloads (cs : list RemoteCall) : list AccountUpdateParameters :=
  match cs with
  | [] => []
  | AccountsUpdate _ _ opts :: cs => opts :: update_payloads cs
  | _ :: cs => update_payloads cs
  end.

Definition is_vault_lookup (c : RemoteCall) : bool :=
  match c with VaultBaseUrl _ => true | _ => false end.

(** A call that creates or deletes a remote object. *)
Definition is_create_or_delete (c : RemoteCall) : bool :=
  match c with AccountsCreate _ _ | AccountsDelete _ _ => true | _ => false end.

(** What a payload says on the wire. *)
Definition wire_KeySource (opts : AccountUpdateParameters) : option KeySource :=
  Encryption_KeySource <$> opts_Encryption opts.

Definition wire_KeyVaultProperties (opts : AccountUpdateParameters)
    : option KeyVaultProperties :=
  e ← opts_Encryption opts; Encryption_KeyVaultProperties e.

Definition wire_Services (opts : AccountUpdateParameters) : option EncryptionServices :=
  e ← opts_Encryption opts; Services e.

(** The three strings of a key-vault-properties object, each absent or set. *)
Definition key_reference (kvp : KeyVaultProperties)
    : option string * option string * option string :=
  (deref (KeyName kvp), deref (KeyVersion kvp), deref (KeyVaultURI kvp)).

(** Both services are present in the payload and enabled. *)
Definition blob_and_file_enabled (opts : AccountUpdateParameters) : bool :=
  match wire_Services opts with
  | Some {| Blob := Some b; File := Some f |} => Enabled b && Enabled f
  | _ => false
  end.

(** The key-vault payload of [CreateUpdate] when the world's next free address
    is [n]: the key name and version are allocated first, then the empty
    string of the guard, then the vault's URI. *)
Definition keyVaultUpdateParameters (n : nat) (b : KeyVaultBlock) (uri : string)
    : AccountUpdateParameters :=
  mkAccountUpdateParameters (Some (mkAccountPropertiesUpdateParameters (Some
    {| Services := Some {| Blob := Some {| Enabled := true |};
                           File := Some {| Enabled := true |} |};
       Encryption_KeySource := MicrosoftKeyvault;
       Encryption_KeyVaultProperties := Some
         {| KeyName := Some (mkCell n (key_name b));
            KeyVersion := Some (mkCell (S n) (key_version b));
            KeyVaultURI := Some (mkCell (S (S (S n))) uri) |} |}))).

(** The next free address once [CreateUpdate] has expanded the key vault block
    and allocated the empty string of its guard. *)
Definition allocated_by_guard (d : ResourceData) (n : nat) : nat :=
  match key_vault d with
  | [] => S n
  | _ :: _ => S (S (S n))
  end.

(** ** A concrete setting, used to run the functions *)

Definition acct1_id : string :=
  "/subscriptions/S/resourceGroups/G/providers/Microsoft.Storage/storageAccounts/acct1".

Definition vault1_id : string :=
  "/subscriptions/S/resourceGroups/G/providers/Microsoft.KeyVault/vaults/vault1".

Definition policy1_id : string :=
  "/subscriptions/S/resourceGroups/G/providers/Microsoft.KeyVault/vaults/vault1/objectId/o1".

Definition vault1_uri : string := "https://vault1.vault.azure.net/".

Definition acct1_parsed : ResourceID :=
  {| SubscriptionID := "S"; ResourceGroup := "G";
     Provider := "Microsoft.Storage";
     Path := {["storageAccounts" := "acct1"]} |}.

(** A parser that knows the one storage account of the examples. *)
Definition parse_acct1 (id : string) : result ResourceID :=
  if String.eqb id acct1_id
  then OK acct1_parsed
  else Err (Errorf "Cannot parse Azure ID: %s" [ArgString id]).

Definition world0 : World := mkWorld 0 [].

Definition block1 : KeyVaultBlock :=
  {| key_vault_policy_id := policy1_id; key_vault_id := vault1_id;
     key_name := "k1"; key_version := "v1"; key_vault_uri := "" |}.

(** A remote encryption state, by key source and key-vault-properties. *)
Definition account_with (ks : KeySource) (kvp : option KeyVaultProperties) : Account :=
  {| Response := Some 200;
     Account_Properties := Some {| Props_Encryption := Some
       {| Services := Some {| Blob := Some {| Enabled := true |};
                              File := Some {| Enabled := true |} |};
          Encryption_KeySource := ks;
          Encryption_KeyVaultProperties := kvp |} |} |}.

(** A remote side where every call succeeds and the account reads as [acct]. *)
Definition healthy (acct : Account) : Client :=
  {| KeyVault_baseUrl := fun _ => OK vault1_uri;
     Storage_Update := fun _ _ _ => None;
     Storage_GetProperties := fun _ _ _ => (acct, None) |}.

(** Configurations and remote sides of the scenarios. *)
Definition declared_plain : ResourceData := mkResourceData "" acct1_id [].

Definition declared_key_vault : ResourceData := mkResourceData "" acct1_id [block1].

(** A block whose key name and version are set while its [key_vault_id] is
    empty. *)
Definition block_without_vault_id : KeyVaultBlock :=
  {| key_vault_policy_id := policy1_id; key_vault_id := "";
     key_name := "k1"; key_version := "v1"; key_vault_uri := "" |}.

Definition declared_without_vault_id : ResourceData :=
  mkResourceData "" acct1_id [block_without_vault_id].

(** A block whose key name is empty while its [key_vault_id] is set. *)
Definition block_without_key_name : KeyVaultBlock :=
  {| key_vault_policy_id := policy1_id; key_vault_id := vault1_id;
     key_name := ""; key_version := "v1"; key_vault_uri := "" |}.

Definition declared_without_key_name : ResourceData :=
  mkResourceData "" acct1_id [block_without_key_name].

(** A block recorded while the key lived in another vault: its computed
    [key_vault_uri] is that vault's. *)
Definition block_moved : KeyVaultBlock :=
  {| key_vault_policy_id := policy1_id; key_vault_id := vault1_id;
     key_name := "k1"; key_version := "v1";
     key_vault_uri := "https://vault0.vault.azure.net/" |}.

Definition declared_moved : ResourceData :=
  mkResourceData (acct1_id +:+ "/encryptionSettings") acct1_id [block_moved].

(** The resource data an import starts from: only the handle is known. *)
Definition declared_handle : ResourceData := mkResourceData acct1_id "" [].

Definition remote_platform : Account := account_with MicrosoftStorage None.

Definition remote_key_vault : Account :=
  account_with MicrosoftKeyvault (Some
    {| KeyName := Some (mkCell 0 "k1");
       KeyVersion := Some (mkCell 1 "v1");
       KeyVaultURI := Some (mkCell 2 vault1_uri) |}).

Definition conflict : error := CollaboratorError "409 Conflict".

(** A remote side whose update call fails. *)
Definition failing_update : Client :=
  {| KeyVault_baseUrl := fun _ => OK vault1_uri;
     Storage_Update := fun _ _ _ => Some conflict;
     Storage_GetProperties := fun _ _ _ => (remote_platform, None) |}.

(** A remote side whose properties lookup fails with the given status. *)
Definition failing_lookup (status : nat) (cause : error) : Client :=
  {| KeyVault_baseUrl := fun _ => OK vault1_uri;
     Storage_Update := fun _ _ _ => None;
     Storage_GetProperties := fun _ _ _ =>
       ({| Response := Some status; Account_Properties := None |}, Some cause) |}.

(** The key-vault-properties of a fetched account, if every pointer on the
    way is set. *)
Definition remote_KeyVaultProperties (resp : Account) : option KeyVaultProperties :=
  props ← Account_Properties resp;
  enc ← Props_Encryption props;
  Encryption_KeyVaultProperties enc.

(** What [d.Set("key_vault", flatten(...))] stores for a payload's
    key-vault-properties and the two carried identifiers. *)
Definition read_back (opts : AccountUpdateParameters)
    (keyVaultId keyVaultPolicyId : string) : list KeyVaultBlock :=
  block_of_map <$>
    flattenAzureRmStorageAccountKeyVaultProperties
      (wire_KeyVaultProperties opts) keyVaultId keyVaultPolicyId.

(** The selection rule read literally: a written payload is key-vault-managed
    exactly when the configuration has a block with a non-empty key name. *)
Definition key_source_follows_key_name
    (run : ResourceData -> Client -> M (ResourceData * option error))
    (d : ResourceData) (meta : Client) (w : World) : Prop :=
  Forall (fun opts =>
            wire_KeySource opts = Some MicrosoftKeyvault <->
            exists b rest, key_vault d = b :: rest /\ key_name b <> "")
         (update_payloads (issued (run d meta) w)).

(** A payload as it is marshalled: the strings its pointers lead to, the
    addresses forgotten. *)
Definition forget_address (p : pstring) : pstring :=
  (fun c => mkCell 0 (target c)) <$> p.

Definition on_the_wire (opts : AccountUpdateParameters) : AccountUpdateParameters :=
  modify_Encryption (fun e =>
    {| Services := Services e;
       Encryption_KeySource := Encryption_KeySource e;
       Encryption_KeyVaultProperties :=
         (fun k => {| KeyName := forget_address (KeyName k);
                      KeyVersion := forget_address (KeyVersion k);
                      KeyVaultURI := forget_address (KeyVaultURI k) |})
           <$> Encryption_KeyVaultProperties e |}) opts.

(** The attribute names of the key_vault block's schema. *)
Definition key_vault_attributes : list string :=
  ["key_vault_policy_id"; "key_vault_id"; "key_name"; "key_version"; "key_vault_uri"].

(** A configuration whose storage account identifier the parser refuses. *)
Definition declared_malformed : ResourceData :=
  mkResourceData "stale" "acct1" [block1].

Definition vault_gone : error := CollaboratorError "vault not found".

(** A remote side whose key-vault resolver fails. *)
Definition failing_vault : Client :=
  {| KeyVault_baseUrl := fun _ => Err vault_gone;
     Storage_Update := fun _ _ _ => None;
     Storage_GetProperties := fun _ _ _ => (remote_platform, None) |}.

(** A remote key-vault-properties object that names a key but no vault. *)
Definition remote_partial : Account :=
  account_with MicrosoftKeyvault (Some
    {| KeyName := Some (mkCell 0 "k9"); KeyVersion := None; KeyVaultURI := None |}).

(** Two resource data agree on what a read carries forward: the storage
    account identifier and the two identifiers of the first key_vault block. *)
Definition same_identifiers (d d' : ResourceData) : Prop :=
  storage_account_id d' = storage_account_id d /\
  Get_key_vault_0 key_vault_id d' = Get_key_vault_0 key_vault_id d /\
  Get_key_vault_0 key_vault_policy_id d' = Get_key_vault_0 key_vault_policy_id d.

(** The block a read stores for remote key-vault-properties: the two
    identifiers of the prior first block, the three key fields from the
    remote pointers, a nil pointer as the empty string. *)
Definition refreshed_block (d : ResourceData) (kvp : KeyVaultProperties) : KeyVaultBlock :=
  {| key_vault_policy_id := Get_key_vault_0 key_vault_policy_id d;
     key_vault_id := Get_key_vault_0 key_vault_id d;
     key_name := default "" (deref (KeyName kvp));
     key_version := default "" (deref (KeyVersion kvp));
     key_vault_uri := default "" (deref (KeyVaultURI kvp)) |}.

Definition is_properties_lookup (c : RemoteCall) : bool :=
  match c with AccountsGetProperties _ _ _ => true | _ => false end.



(** A handle that names something below the storage account. *)
Definition blob_service_handle : string :=
  "/subscriptions/S/resourceGroups/G/providers/Microsoft.Storage/storageAccounts/acct1/blobServices/default".

(** A parser that also knows that handle: its path has the account and the
    part below it. *)
Definition parse_below_account (id : string) : result ResourceID :=
  if String.eqb id blob_service_handle
  then OK {| SubscriptionID := "S"; ResourceGroup := "G";
             Provider := "Microsoft.Storage";
             Path := {["storageAccounts" := "acct1"; "blobServices" := "default"]} |}
  else parse_acct1 id.

(** The remote calls of create-or-update from the update on: the update, and
    the read-back only if the update succeeds. *)
Definition update_then_read_back (meta : Client) (g n : string)
    (opts : AccountUpdateParameters) : list RemoteCall :=
  AccountsUpdate g n opts ::
  match Storage_Update meta g n opts with
  | Some _ => []
  | None => [AccountsGetProperties g n ""]
  end.

(** The four operations with the parser of the scenarios. *)
Local Abbreviation Read1 := (resourceArmStorageAccountEncryptionSettingsRead parse_acct1).
Local Abbreviation CreateUpdate1 :=
  (resourceArmStorageAccountEncryptionSettingsCreateUpdate parse_acct1).
Local Abbreviation Delete1 := (resourceArmStorageAccountEncryptionSettingsDelete parse_acct1).
Local Abbreviation ImportState1 :=
  (resourceArmStorageAccountEncryptionSettingsImportState parse_acct1).

(** ** Basic facts about the world *)

Lemma issued_of_extension {A} (m : M A) (w : World) (l : list RemoteCall) :
  calls (snd (m w)) = calls w ++ l -> issued m w = l.
Proof.
  intros H. unfold issued. rewrite H. apply drop_app_length.
Qed.

(** Closes a goal whose hypothesis [H] places a call in a log of calls of
    other kinds. *)
Ltac no_such_call H :=
  repeat (apply elem_of_cons in H as [H|H]; [discriminate H|]);
  by apply elem_of_nil in H.

Lemma issued_nothing {A} (m : M A) (w : World) (a : A) :
  m w = (a, w) -> issued m w = [].
Proof.
  intros H. apply issued_of_extension. rewrite H. cbn. by rewrite app_nil_r.
Qed.

(** A pointer just returned by [utils.String] differs from every pointer
    allocated two steps earlier. *)
Lemma fresh_address_differs (n : nat) : Nat.eqb n (S (S n)) = false.
Proof. apply Nat.eqb_neq. lia. Qed.

(** The guard of [CreateUpdate] compares the key name's pointer with a
    pointer allocated after it (or with nil against non-nil): the two are
    never equal, whatever the key name is. *)
Lemma key_name_guard_always_passes (d : ResourceData) (w : World) :
  let (keyVaultProperties, w1) := expandAzureRmStorageAccountKeyVaultProperties d w in
  let (empty, _) := utils_String "" w1 in
  negb (ptr_eqb (KeyName keyVaultProperties) empty) = true.
Proof.
  unfold expandAzureRmStorageAccountKeyVaultProperties.
  destruct (key_vault d) as [|v vs]; cbn; [done|].
  by rewrite fresh_address_differs.
Qed.

Section ResourceFacts.

Variable ParseAzureResourceID : string -> result ResourceID.

Local Abbreviation Read := (resourceArmStorageAccountEncryptionSettingsRead ParseAzureResourceID).
Local Abbreviation CreateUpdate :=
  (resourceArmStorageAccountEncryptionSettingsCreateUpdate ParseAzureResourceID).
Local Abbreviation Delete := (resourceArmStorageAccountEncryptionSettingsDelete ParseAzureResourceID).
Local Abbreviation ImportState :=
  (resourceArmStorageAccountEncryptionSettingsImportState ParseAzureResourceID).

(** *** Read *)

Lemma Read_unparsed d meta w e :
  ParseAzureResourceID (storage_account_id d) = Err e ->
  Read d meta w = (d, Some e, w).
Proof.
  intros H. unfold resourceArmStorageAccountEncryptionSettingsRead. by rewrite H.
Qed.

Lemma Read_world d meta w id :
  ParseAzureResourceID (storage_account_id d) = OK id ->
  snd (Read d meta w) =
  mkWorld (next_addr w)
    (calls w ++ [AccountsGetProperties (ResourceGroup id) (Path_at id "storageAccounts") ""]).
Proof.
  intros H. unfold resourceArmStorageAccountEncryptionSettingsRead. rewrite H.
  unfold bind, storageClient_GetProperties, remote, ret; cbn.
  destruct (Storage_GetProperties meta _ _ _) as [resp [err|]]; cbn.
  - by destruct (utils_ResponseWasNotFound _).
  - destruct (Account_Properties resp) as [props|]; [|done].
    destruct (Props_Encryption props) as [enc|]; [|done].
    by destruct (Encryption_KeyVaultProperties enc).
Qed.

(** The writes of the two informational flags name attributes the schema
    does not have: they are refused and leave the resource data as it was. *)
Lemma Set_enable_blob_encryption_refused d v :
  fst (Set_ d "enable_blob_encryption" v) = d.
Proof. reflexivity. Qed.

Lemma Set_enable_file_encryption_refused d v :
  fst (Set_ d "enable_file_encryption" v) = d.
Proof. reflexivity. Qed.

(** The outcome of a read whose lookup succeeded, by the remote
    key-vault-properties. *)
Lemma Read_found d meta w id resp :
  ParseAzureResourceID (storage_account_id d) = OK id ->
  Storage_GetProperties meta (ResourceGroup id) (Path_at id "storageAccounts") "" = (resp, None) ->
  fst (Read d meta w) =
  match remote_KeyVaultProperties resp with
  | Some kvp =>
      (mkResourceData (Id d) (storage_account_id d)
         (block_of_map <$> flattenAzureRmStorageAccountKeyVaultProperties (Some kvp)
            (Get_key_vault_0 key_vault_id d) (Get_key_vault_0 key_vault_policy_id d)),
       None)
  | None => (d, None)
  end.
Proof.
  intros Hp Hg. unfold resourceArmStorageAccountEncryptionSettingsRead. rewrite Hp.
  unfold remote_KeyVaultProperties.
  unfold bind, storageClient_GetProperties, remote, ret; cbn. rewrite Hg; cbn.
  destruct (Account_Properties resp) as [props|]; [|done]. cbn.
  destruct (Props_Encryption props) as [enc|]; [|done]. cbn.
  destruct (Services enc) as [[[blob|] [file|]]|];
    rewrite ?Set_enable_file_encryption_refused, ?Set_enable_blob_encryption_refused;
    by destruct (Encryption_KeyVaultProperties enc).
Qed.

Lemma Read_lookup_failed d meta w id resp cause :
  ParseAzureResourceID (storage_account_id d) = OK id ->
  Storage_GetProperties meta (ResourceGroup id) (Path_at id "storageAccounts") ""
    = (resp, Some cause) ->
  fst (Read d meta w) =
  if utils_ResponseWasNotFound (Response resp)
  then (SetId d "", None)
  else (d, Some (Errorf "Error reading the state of AzureRM Storage Account %q: %+v"
                   [ArgString (Path_at id "storageAccounts"); ArgError cause])).
Proof.
  intros Hp Hg. unfold resourceArmStorageAccountEncryptionSettingsRead. rewrite Hp.
  unfold bind, storageClient_GetProperties, remote, ret; cbn. rewrite Hg; cbn.
  by destruct (utils_ResponseWasNotFound _).
Qed.

(** *** CreateUpdate *)

Lemma CreateUpdate_unparsed d meta w e :
  ParseAzureResourceID (storage_account_id d) = Err e ->
  CreateUpdate d meta w = (d, Some e, w).
Proof.
  intros H. unfold resourceArmStorageAccountEncryptionSettingsCreateUpdate. by rewrite H.
Qed.

(** Without a usable [key_vault_id] the default payload is sent, whatever the
    key name and version are. *)
Lemma CreateUpdate_platform d meta w id :
  ParseAzureResourceID (storage_account_id d) = OK id ->
  snd (GetOk_key_vault_0 key_vault_id d) = false ->
  let g := ResourceGroup id in
  let n := Path_at id "storageAccounts" in
  let w1 := mkWorld (allocated_by_guard d (next_addr w))
              (calls w ++ [AccountsUpdate g n defaultUpdateParameters]) in
  CreateUpdate d meta w =
  match Storage_Update meta g n defaultUpdateParameters with
  | Some err =>
      (d, Some (Errorf "Error updating Azure Storage Account Encryption %q: %+v"
                  [ArgString n; ArgError err]), w1)
  | None => Read (SetId d (storage_account_id d +:+ "/encryptionSettings")) meta w1
  end.
Proof.
  intros Hp Hk. cbv zeta.
  unfold resourceArmStorageAccountEncryptionSettingsCreateUpdate. rewrite Hp.
  unfold GetOk_key_vault_0, Get_key_vault_0 in *.
  unfold allocated_by_guard, expandAzureRmStorageAccountKeyVaultProperties.
  destruct (key_vault d) as [|b rest]; cbn in Hk.
  - unfold bind, ret, utils_String, storageClient_Update, remote; cbn.
    by destruct (Storage_Update meta _ _ _).
  - unfold bind, ret, utils_String, storageClient_Update, remote; cbn.
    rewrite fresh_address_differs; cbn. rewrite Hk; cbn.
    by destruct (Storage_Update meta _ _ _).
Qed.

(** With a [key_vault_id] the vault is asked for its URI first. *)
Lemma CreateUpdate_key_vault d meta w id b rest :
  ParseAzureResourceID (storage_account_id d) = OK id ->
  key_vault d = b :: rest ->
  key_vault_id b <> "" ->
  let g := ResourceGroup id in
  let n := Path_at id "storageAccounts" in
  let w0 := mkWorld (S (S (S (next_addr w)))) (calls w ++ [VaultBaseUrl (key_vault_id b)]) in
  CreateUpdate d meta w =
  match KeyVault_baseUrl meta (key_vault_id b) with
  | Err err =>
      (d, Some (Errorf "Error looking up Key Vault URI from id %q: %+v"
                  [ArgString (key_vault_id b); ArgError err]), w0)
  | OK uri =>
      let opts := keyVaultUpdateParameters (next_addr w) b uri in
      let w1 := mkWorld (S (S (S (S (next_addr w)))))
                  ((calls w ++ [VaultBaseUrl (key_vault_id b)]) ++ [AccountsUpdate g n opts]) in
      match Storage_Update meta g n opts with
      | Some err =>
          (d, Some (Errorf "Error updating Azure Storage Account Encryption %q: %+v"
                      [ArgString n; ArgError err]), w1)
      | None => Read (SetId d (storage_account_id d +:+ "/encryptionSettings")) meta w1
      end
  end.
Proof.
  intros Hp Hk Hne. cbv zeta.
  unfold resourceArmStorageAccountEncryptionSettingsCreateUpdate. rewrite Hp.
  unfold GetOk_key_vault_0, Get_key_vault_0, expandAzureRmStorageAccountKeyVaultProperties.
  rewrite Hk.
  apply String.eqb_neq in Hne.
  unfold bind, ret, utils_String, storageClient_Update, azure_GetKeyVaultBaseUrlFromID,
    remote; cbn.
  rewrite fresh_address_differs; cbn. rewrite Hne; cbn.
  destruct (KeyVault_baseUrl meta _) as [uri|err]; cbn; [|done].
  by destruct (Storage_Update meta _ _ _).
Qed.

Lemma CreateUpdate_platform_calls d meta w id :
  ParseAzureResourceID (storage_account_id d) = OK id ->
  snd (GetOk_key_vault_0 key_vault_id d) = false ->
  let g := ResourceGroup id in
  let n := Path_at id "storageAccounts" in
  issued (CreateUpdate d meta) w =
  AccountsUpdate g n defaultUpdateParameters ::
  match Storage_Update meta g n defaultUpdateParameters with
  | Some _ => []
  | None => [AccountsGetProperties g n ""]
  end.
Proof.
  intros Hp Hk. cbv zeta. apply issued_of_extension.
  rewrite (CreateUpdate_platform d meta w id Hp Hk).
  destruct (Storage_Update meta _ _ _) as [err|]; [done|].
  rewrite (Read_world _ meta _ id); [|done]. cbn. by rewrite <- app_assoc.
Qed.

Lemma CreateUpdate_key_vault_calls d meta w id b rest :
  ParseAzureResourceID (storage_account_id d) = OK id ->
  key_vault d = b :: rest ->
  key_vault_id b <> "" ->
  let g := ResourceGroup id in
  let n := Path_at id "storageAccounts" in
  issued (CreateUpdate d meta) w =
  VaultBaseUrl (key_vault_id b) ::
  match KeyVault_baseUrl meta (key_vault_id b) with
  | Err _ => []
  | OK uri =>
      let opts := keyVaultUpdateParameters (next_addr w) b uri in
      AccountsUpdate g n opts ::
      match Storage_Update meta g n opts with
      | Some _ => []
      | None => [AccountsGetProperties g n ""]
      end
  end.
Proof.
  intros Hp Hk Hne. cbv zeta. apply issued_of_extension.
  rewrite (CreateUpdate_key_vault d meta w id b rest Hp Hk Hne).
  destruct (KeyVault_baseUrl meta _) as [uri|err]; [|done]. cbv zeta.
  destruct (Storage_Update meta _ _ _) as [err|]; cbn.
  - by rewrite <- app_assoc.
  - rewrite (Read_world _ meta _ id); [|done]. cbn. by rewrite <- !app_assoc.
Qed.

(** A block's [key_vault_id] is usable exactly when [GetOk] says so. *)
Lemma GetOk_key_vault_id_cases d :
  (snd (GetOk_key_vault_0 key_vault_id d) = false) \/
  (exists b rest, key_vault d = b :: rest /\ key_vault_id b <> "").
Proof.
  unfold GetOk_key_vault_0, Get_key_vault_0.
  destruct (key_vault d) as [|b rest]; cbn; [by left|].
  destruct (String.eqb (key_vault_id b) "") eqn:E; [by left|].
  right. exists b, rest. split; [done|]. by apply String.eqb_neq.
Qed.

(** *** Delete *)

Lemma Delete_unparsed d meta w e :
  ParseAzureResourceID (storage_account_id d) = Err e ->
  Delete d meta w = (d, Some e, w).
Proof.
  intros H. unfold resourceArmStorageAccountEncryptionSettingsDelete. by rewrite H.
Qed.

Lemma Delete_run d meta w id :
  ParseAzureResourceID (storage_account_id d) = OK id ->
  let g := ResourceGroup id in
  let n := Path_at id "storageAccounts" in
  Delete d meta w =
  (d,
   (fun err => Errorf "Error updating Azure Storage Account Encryption %q: %+v"
                 [ArgString n; ArgError err])
     <$> Storage_Update meta g n revertUpdateParameters,
   mkWorld (next_addr w) (calls w ++ [AccountsUpdate g n revertUpdateParameters])).
Proof.
  intros Hp. cbv zeta. unfold resourceArmStorageAccountEncryptionSettingsDelete. rewrite Hp.
  unfold bind, ret, storageClient_Update, remote; cbn.
  by destruct (Storage_Update meta _ _ _).
Qed.

Lemma Delete_calls d meta w :
  issued (Delete d meta) w =
  match ParseAzureResourceID (storage_account_id d) with
  | OK id =>
      [AccountsUpdate (ResourceGroup id) (Path_at id "storageAccounts") revertUpdateParameters]
  | Err _ => []
  end.
Proof.
  apply issued_of_extension.
  destruct (ParseAzureResourceID (storage_account_id d)) as [id|e] eqn:Hp.
  - by rewrite (Delete_run d meta w id Hp).
  - rewrite (Delete_unparsed d meta w e Hp). cbn. by rewrite app_nil_r.
Qed.

Lemma Read_calls d meta w :
  issued (Read d meta) w =
  match ParseAzureResourceID (storage_account_id d) with
  | OK id => [AccountsGetProperties (ResourceGroup id) (Path_at id "storageAccounts") ""]
  | Err _ => []
  end.
Proof.
  apply issued_of_extension.
  destruct (ParseAzureResourceID (storage_account_id d)) as [id|e] eqn:Hp.
  - by rewrite (Read_world d meta w id Hp).
  - rewrite (Read_unparsed d meta w e Hp). cbn. by rewrite app_nil_r.
Qed.

(** *** ImportState *)

Lemma ImportState_unparsed d meta w e :
  ParseAzureResourceID (Id d) = Err e ->
  ImportState d meta w = (mkResourceData (Id d) (Id d) (key_vault d), None, Some e, w).
Proof.
  intros H. unfold resourceArmStorageAccountEncryptionSettingsImportState. by rewrite H.
Qed.

Lemma ImportState_world d meta w saId :
  ParseAzureResourceID (Id d) = OK saId ->
  snd (ImportState d meta w) =
  mkWorld (next_addr w)
    (calls w ++ [AccountsGetProperties (ResourceGroup saId) (Path_at saId "storageAccounts") ""]).
Proof.
  intros H. unfold resourceArmStorageAccountEncryptionSettingsImportState. rewrite H.
  unfold bind, storageClient_GetProperties, remote, ret; cbn.
  destruct (Storage_GetProperties meta _ _ _) as [resp [err|]]; cbn.
  - by destruct (utils_ResponseWasNotFound _).
  - destruct (Account_Properties resp) as [props|]; [|done].
    destruct (Props_Encryption props) as [enc|]; [|done].
    by destruct (Encryption_KeyVaultProperties enc).
Qed.

Lemma ImportState_calls d meta w :
  issued (ImportState d meta) w =
  match ParseAzureResourceID (Id d) with
  | OK saId =>
      [AccountsGetProperties (ResourceGroup saId) (Path_at saId "storageAccounts") ""]
  | Err _ => []
  end.
Proof.
  apply issued_of_extension.
  destruct (ParseAzureResourceID (Id d)) as [saId|e] eqn:Hp.
  - by rewrite (ImportState_world d meta w saId Hp).
  - rewrite (ImportState_unparsed d meta w e Hp). cbn. by rewrite app_nil_r.
Qed.

Lemma ImportState_lookup_failed d meta w saId resp cause :
  ParseAzureResourceID (Id d) = OK saId ->
  Storage_GetProperties meta (ResourceGroup saId) (Path_at saId "storageAccounts") ""
    = (resp, Some cause) ->
  fst (ImportState d meta w) =
  if utils_ResponseWasNotFound (Response resp)
  then (mkResourceData "" (Id d) (key_vault d), None, None)
  else (mkResourceData (Id d) (Id d) (key_vault d), None,
        Some (Errorf "Error importing the state of AzureRM Storage Account %q: %+v"
                [ArgString (Path_at saId "storageAccounts"); ArgError cause])).
Proof.
  intros Hp Hg. unfold resourceArmStorageAccountEncryptionSettingsImportState. rewrite Hp.
  unfold bind, storageClient_GetProperties, remote, ret; cbn. rewrite Hg; cbn.
  by destruct (utils_ResponseWasNotFound _).
Qed.

Lemma ImportState_found d meta w saId resp :
  ParseAzureResourceID (Id d) = OK saId ->
  Storage_GetProperties meta (ResourceGroup saId) (Path_at saId "storageAccounts") ""
    = (resp, None) ->
  let d' :=
    mkResourceData (Id d +:+ "/encryptionSettings") (Id d)
      match remote_KeyVaultProperties resp with
      | Some kvp =>
          block_of_map <$>
            flattenAzureRmStorageAccountKeyVaultProperties (Some kvp) "" ""
      | None => key_vault d
      end in
  fst (ImportState d meta w) = (d', Some [d'], None).
Proof.
  intros Hp Hg. cbv zeta.
  unfold resourceArmStorageAccountEncryptionSettingsImportState. rewrite Hp.
  unfold remote_KeyVaultProperties.
  unfold bind, storageClient_GetProperties, remote, ret; cbn. rewrite Hg; cbn.
  destruct (Account_Properties resp) as [props|]; [|done]. cbn.
  destruct (Props_Encryption props) as [enc|]; [|done]. cbn.
  by destruct (Encryption_KeyVaultProperties enc).
Qed.

End ResourceFacts.

(** ** The properties of the specification *)

Section Claims.

Variable ParseAzureResourceID : string -> result ResourceID.

Local Abbreviation Read := (resourceArmStorageAccountEncryptionSettingsRead ParseAzureResourceID).
Local Abbreviation CreateUpdate :=
  (resourceArmStorageAccountEncryptionSettingsCreateUpdate ParseAzureResourceID).
Local Abbreviation Delete := (resourceArmStorageAccountEncryptionSettingsDelete ParseAzureResourceID).
Local Abbreviation ImportState :=
  (resourceArmStorageAccountEncryptionSettingsImportState ParseAzureResourceID).


(** The payload by the declared key_vault_id, for a configuration whose
    storage account identifier
    parses: when the key_vault block is absent or its key_vault_id is empty,
    create-or-update writes one payload, with key source platform-managed and
    a key-vault-properties object that names no key, whatever key_name and
    key_version are; when the block has a non-empty key_name and a non-empty
    key_vault_id that the vault resolver maps to a URI, it writes one
    payload, with key source key-vault-managed and the key reference made of
    the declared key_name, the declared key_version and the resolved URI. *)
Theorem write_key_source_by_key_vault_id d meta w id :
  ParseAzureResourceID (storage_account_id d) = OK id ->
  ((key_vault d = [] \/ Get_key_vault_0 key_vault_id d = "") ->
   exists opts,
     update_payloads (issued (CreateUpdate d meta) w) = [opts] /\
     wire_KeySource opts = Some MicrosoftStorage /\
     key_reference <$> wire_KeyVaultProperties opts = Some (None, None, None))
  /\
  (forall b rest uri,
     key_vault d = b :: rest ->
     key_name b <> "" ->
     key_vault_id b <> "" ->
     KeyVault_baseUrl meta (key_vault_id b) = OK uri ->
     exists opts,
       update_payloads (issued (CreateUpdate d meta) w) = [opts] /\
       wire_KeySource opts = Some MicrosoftKeyvault /\
       key_reference <$> wire_KeyVaultProperties opts
         = Some (Some (key_name b), Some (key_version b), Some uri)).
Proof.
  intros Hp. split.
  - intros Hno.
    assert (Hk : snd (GetOk_key_vault_0 key_vault_id d) = false).
    { unfold GetOk_key_vault_0. cbn.
      destruct Hno as [Hnil|He].
      - unfold Get_key_vault_0. by rewrite Hnil.
      - by rewrite He. }
    rewrite (CreateUpdate_platform_calls _ d meta w id Hp Hk).
    exists defaultUpdateParameters.
    by destruct (Storage_Update meta _ _ _).
  - intros b rest uri Hb _ Hne Hu.
    rewrite (CreateUpdate_key_vault_calls _ d meta w id b rest Hp Hb Hne), Hu.
    exists (keyVaultUpdateParameters (next_addr w) b uri). cbv zeta.
    by destruct (Storage_Update meta _ _ _).
Qed.

(** C2, amended.  Every payload written by create-or-update has the blob and
    the file service present and enabled, for every configuration; the
    payload written by delete carries no services record at all. *)
Theorem create_update_enables_blob_and_file d meta w :
  Forall (fun opts => blob_and_file_enabled opts = true)
    (update_payloads (issued (CreateUpdate d meta) w)) /\
  Forall (fun opts => wire_Services opts = None)
    (update_payloads (issued (Delete d meta) w)).
Proof.
  split.
  - destruct (ParseAzureResourceID (storage_account_id d)) as [id|e] eqn:Hp.
    + destruct (GetOk_key_vault_id_cases d) as [Hk|(b & rest & Hb & Hne)].
      * rewrite (CreateUpdate_platform_calls _ d meta w id Hp Hk).
        destruct (Storage_Update meta _ _ _); cbn; by repeat constructor.
      * rewrite (CreateUpdate_key_vault_calls _ d meta w id b rest Hp Hb Hne).
        destruct (KeyVault_baseUrl meta _) as [uri|err]; cbn; [|constructor].
        destruct (Storage_Update meta _ _ _); cbn; by repeat constructor.
    + rewrite (issued_nothing _ w _ (CreateUpdate_unparsed _ d meta w e Hp)).
      constructor.
  - rewrite Delete_calls.
    destruct (ParseAzureResourceID _); cbn; by repeat constructor.
Qed.

(** C3.  Delete never issues a call that creates or deletes a remote object;
    and for a prior state whose storage account identifier parses it issues
    exactly one remote call, an update of that storage account whose payload
    has key source platform-managed and no key-vault-properties. *)
Theorem delete_reverts_with_one_update d meta w :
  forallb (fun c => negb (is_create_or_delete c)) (issued (Delete d meta) w) = true /\
  (forall id,
     ParseAzureResourceID (storage_account_id d) = OK id ->
     exists opts,
       issued (Delete d meta) w =
         [AccountsUpdate (ResourceGroup id) (Path_at id "storageAccounts") opts] /\
       wire_KeySource opts = Some MicrosoftStorage /\
       wire_KeyVaultProperties opts = None).
Proof.
  rewrite Delete_calls. split.
  - by destruct (ParseAzureResourceID _).
  - intros id ->. by exists revertUpdateParameters.
Qed.

(** C4, amended.  Create-or-update issues at most three remote calls in
    sequence (the vault lookup, the update and the read-back), and at most
    two when no usable key_vault_id is declared; read, delete and import
    issue at most one each. *)
Theorem remote_calls_bounded d meta w :
  length (issued (CreateUpdate d meta) w)
    <= (if snd (GetOk_key_vault_0 key_vault_id d) then 3 else 2) /\
  length (issued (Read d meta) w) <= 1 /\
  length (issued (Delete d meta) w) <= 1 /\
  length (issued (ImportState d meta) w) <= 1.
Proof.
  repeat split.
  - destruct (ParseAzureResourceID (storage_account_id d)) as [id|e] eqn:Hp.
    + destruct (GetOk_key_vault_id_cases d) as [Hk|(b & rest & Hb & Hne)].
      * rewrite (CreateUpdate_platform_calls _ d meta w id Hp Hk), Hk.
        destruct (Storage_Update meta _ _ _); cbn; lia.
      * rewrite (CreateUpdate_key_vault_calls _ d meta w id b rest Hp Hb Hne).
        unfold GetOk_key_vault_0, Get_key_vault_0. rewrite Hb. cbn.
        apply String.eqb_neq in Hne. rewrite Hne. cbn.
        destruct (KeyVault_baseUrl meta _) as [uri|err]; cbn; [|lia].
        destruct (Storage_Update meta _ _ _); cbn; lia.
    + rewrite (issued_nothing _ w _ (CreateUpdate_unparsed _ d meta w e Hp)).
      destruct (snd _); cbn; lia.
  - rewrite Read_calls. destruct (ParseAzureResourceID _); cbn; lia.
  - rewrite Delete_calls. destruct (ParseAzureResourceID _); cbn; lia.
  - rewrite ImportState_calls. destruct (ParseAzureResourceID _); cbn; lia.
Qed.

(** C5, amended.  On read, when the lookup succeeds and the fetched remote
    state has no key-vault-properties, the resource data is returned as it
    was, without error: the key_vault block is left as the prior
    configuration had it, empty only if it was empty before. *)
Theorem read_without_remote_key_vault_keeps_block d meta w id resp :
  ParseAzureResourceID (storage_account_id d) = OK id ->
  Storage_GetProperties meta (ResourceGroup id) (Path_at id "storageAccounts") ""
    = (resp, None) ->
  remote_KeyVaultProperties resp = None ->
  fst (Read d meta w) = (d, None) /\
  key_vault (fst (fst (Read d meta w))) = key_vault d.
Proof.
  intros Hp Hg Hn.
  rewrite (Read_found _ d meta w id resp Hp Hg), Hn. done.
Qed.

(** C6, amended.  For a configuration with a key_vault block whose key_name
    and key_vault_id are set and whose vault resolves to a URI, the payload that
    create-or-update writes, read back with the declared key_vault_id and
    key_vault_policy_id carried forward, gives a block with the declared
    key_name and key_version, with both identifiers unchanged, and with
    key_vault_uri equal to the URI resolved at write time (the declared
    key_vault_uri is not consulted). *)
Theorem write_then_read_back d meta w id b rest uri :
  ParseAzureResourceID (storage_account_id d) = OK id ->
  key_vault d = b :: rest ->
  key_name b <> "" ->
  key_vault_id b <> "" ->
  KeyVault_baseUrl meta (key_vault_id b) = OK uri ->
  exists opts,
    update_payloads (issued (CreateUpdate d meta) w) = [opts] /\
    read_back opts (key_vault_id b) (key_vault_policy_id b) =
      [ {| key_vault_policy_id := key_vault_policy_id b;
           key_vault_id := key_vault_id b;
           key_name := key_name b;
           key_version := key_version b;
           key_vault_uri := uri |} ].
Proof.
  intros Hp Hb _ Hne Hu.
  rewrite (CreateUpdate_key_vault_calls _ d meta w id b rest Hp Hb Hne), Hu.
  exists (keyVaultUpdateParameters (next_addr w) b uri). cbv zeta. split.
  - by destruct (Storage_Update meta _ _ _).
  - unfold read_back, keyVaultUpdateParameters, wire_KeyVaultProperties; cbn.
    apply String.eqb_neq in Hne. rewrite Hne; cbn.
    destruct (String.eqb (key_vault_policy_id b) "") eqn:Epol; cbn.
    + apply String.eqb_eq in Epol. unfold block_of_map.
      rewrite Epol. f_equal.
    + reflexivity.
Qed.

(** C7.  On create-or-update of a configuration whose storage account
    identifier parses, if an update call the operation issues fails, the
    operation returns the error that wraps the storage account name and the
    cause, and the resource data is returned as it was given: no resource id
    is set and no attribute is written. *)
Theorem update_failure_commits_nothing d meta w id g n opts cause :
  ParseAzureResourceID (storage_account_id d) = OK id ->
  AccountsUpdate g n opts ∈ issued (CreateUpdate d meta) w ->
  Storage_Update meta g n opts = Some cause ->
  n = Path_at id "storageAccounts" /\
  fst (CreateUpdate d meta w) =
    (d, Some (Errorf "Error updating Azure Storage Account Encryption %q: %+v"
                [ArgString n; ArgError cause])).
Proof.
  intros Hp Hin Hf.
  destruct (GetOk_key_vault_id_cases d) as [Hk|(b & rest & Hb & Hne)].
  - rewrite (CreateUpdate_platform_calls _ d meta w id Hp Hk) in Hin.
    rewrite (CreateUpdate_platform _ d meta w id Hp Hk).
    apply elem_of_cons in Hin as [Heq|Hin].
    + injection Heq as -> -> ->. by rewrite Hf.
    + destruct (Storage_Update meta _ _ _); no_such_call Hin.
  - rewrite (CreateUpdate_key_vault_calls _ d meta w id b rest Hp Hb Hne) in Hin.
    rewrite (CreateUpdate_key_vault _ d meta w id b rest Hp Hb Hne).
    apply elem_of_cons in Hin as [Heq|Hin]; [done|].
    destruct (KeyVault_baseUrl meta _) as [uri|err]; [|no_such_call Hin].
    cbv zeta in *.
    apply elem_of_cons in Hin as [Heq|Hin].
    + injection Heq as -> -> ->. by rewrite Hf.
    + destruct (Storage_Update meta _ _ _); no_such_call Hin.
Qed.

(** C8.  On read and on import, when the properties lookup fails with a
    not-found response the operation clears the resource id and returns no
    error; when it fails in any other way the operation returns an error
    that wraps the account name and the cause, and leaves the resource id
    alone. *)
Theorem lookup_not_found_is_absent d meta w id resp cause :
  (ParseAzureResourceID (storage_account_id d) = OK id ->
   Storage_GetProperties meta (ResourceGroup id) (Path_at id "storageAccounts") ""
     = (resp, Some cause) ->
   fst (Read d meta w) =
   if utils_ResponseWasNotFound (Response resp)
   then (SetId d "", None)
   else (d, Some (Errorf "Error reading the state of AzureRM Storage Account %q: %+v"
                    [ArgString (Path_at id "storageAccounts"); ArgError cause])))
  /\
  (ParseAzureResourceID (Id d) = OK id ->
   Storage_GetProperties meta (ResourceGroup id) (Path_at id "storageAccounts") ""
     = (resp, Some cause) ->
   fst (ImportState d meta w) =
   if utils_ResponseWasNotFound (Response resp)
   then (mkResourceData "" (Id d) (key_vault d), None, None)
   else (mkResourceData (Id d) (Id d) (key_vault d), None,
         Some (Errorf "Error importing the state of AzureRM Storage Account %q: %+v"
                 [ArgString (Path_at id "storageAccounts"); ArgError cause]))).
Proof.
  split; intros Hp Hg.
  - by apply Read_lookup_failed.
  - by apply ImportState_lookup_failed.
Qed.

(** C9, amended.  On import of a handle that parses and whose remote state
    has key-vault-properties, the operation returns, without error, one
    resource data: its key_vault block has empty key_vault_id and
    key_vault_policy_id and takes key_name, key_version and key_vault_uri
    from the remote state; its storage_account_id is the whole handle it was
    given, nothing stripped from it, and its resource id is that handle
    followed by "/encryptionSettings". *)
Theorem import_recovers_key_reference d meta w saId resp kvp :
  ParseAzureResourceID (Id d) = OK saId ->
  Storage_GetProperties meta (ResourceGroup saId) (Path_at saId "storageAccounts") ""
    = (resp, None) ->
  remote_KeyVaultProperties resp = Some kvp ->
  let d' :=
    {| Id := Id d +:+ "/encryptionSettings";
       storage_account_id := Id d;
       key_vault :=
         [ {| key_vault_policy_id := "";
              key_vault_id := "";
              key_name := default "" (deref (KeyName kvp));
              key_version := default "" (deref (KeyVersion kvp));
              key_vault_uri := default "" (deref (KeyVaultURI kvp)) |} ] |} in
  fst (ImportState d meta w) = (d', Some [d'], None).
Proof.
  intros Hp Hg Hk. cbv zeta.
  pose proof (ImportState_found _ d meta w saId resp Hp Hg) as H.
  cbv zeta in H. rewrite Hk in H. rewrite H.
  destruct kvp as [[kn|] [kv|] [ku|]]; reflexivity.
Qed.

(** C10.  On create-or-update of a configuration whose storage account
    identifier parses, whenever the key_vault block is absent or its
    key_vault_id is empty, whatever key_name and key_version are: the first
    remote call is the update with the platform-managed default payload, no
    key-vault lookup is issued at all, and the operation returns no error
    when the update and the read-back lookup succeed. *)
Theorem no_vault_id_writes_platform_managed d meta w id :
  ParseAzureResourceID (storage_account_id d) = OK id ->
  (key_vault d = [] \/ Get_key_vault_0 key_vault_id d = "") ->
  let g := ResourceGroup id in
  let n := Path_at id "storageAccounts" in
  (exists rest,
     issued (CreateUpdate d meta) w
       = AccountsUpdate g n defaultUpdateParameters :: rest) /\
  wire_KeySource defaultUpdateParameters = Some MicrosoftStorage /\
  forallb (fun c => negb (is_vault_lookup c)) (issued (CreateUpdate d meta) w) = true /\
  (forall resp,
     Storage_Update meta g n defaultUpdateParameters = None ->
     Storage_GetProperties meta g n "" = (resp, None) ->
     snd (fst (CreateUpdate d meta w)) = None).
Proof.
  intros Hp Hno. cbv zeta.
  assert (Hk : snd (GetOk_key_vault_0 key_vault_id d) = false).
  { unfold GetOk_key_vault_0. cbn.
    destruct Hno as [Hnil|He].
    - unfold Get_key_vault_0. by rewrite Hnil.
    - by rewrite He. }
  rewrite (CreateUpdate_platform_calls _ d meta w id Hp Hk).
  split; [eauto|]. split; [done|]. split.
  - by destruct (Storage_Update meta _ _ _).
  - intros resp Hu Hg.
    rewrite (CreateUpdate_platform _ d meta w id Hp Hk), Hu.
    rewrite (Read_found _ _ meta _ id resp); [|done|done].
    by destruct (remote_KeyVaultProperties resp).
Qed.

End Claims.

(** ** The properties at the scenarios *)

(** No key_vault block: one platform-managed update, then the read-back, and
    the resource id is the account's followed by the suffix. *)
Example scenario_without_key_vault :
  CreateUpdate1 declared_plain (healthy remote_platform) world0 =
  (mkResourceData (acct1_id +:+ "/encryptionSettings") acct1_id [], None,
   mkWorld 1 [AccountsUpdate "G" "acct1" defaultUpdateParameters;
              AccountsGetProperties "G" "acct1" ""]).
Proof. reflexivity. Qed.

(** A block with key "k1"/"v1" in vault1: the payload is key-vault-managed
    and names the key with the resolved URI. *)
Example scenario_with_key_vault :
  issued (CreateUpdate1 declared_key_vault (healthy remote_key_vault)) world0 =
  [VaultBaseUrl vault1_id;
   AccountsUpdate "G" "acct1" (keyVaultUpdateParameters 0 block1 vault1_uri);
   AccountsGetProperties "G" "acct1" ""] /\
  key_reference <$> wire_KeyVaultProperties (keyVaultUpdateParameters 0 block1 vault1_uri)
    = Some (Some "k1", Some "v1", Some vault1_uri).
Proof. split; reflexivity. Qed.

(** The guard on the key name lets an empty key name through: with a
    key_vault_id set, the payload is key-vault-managed and names the empty
    key. *)
Example scenario_with_empty_key_name :
  update_payloads
    (issued (CreateUpdate1 declared_without_key_name (healthy remote_key_vault)) world0)
    = [keyVaultUpdateParameters 0 block_without_key_name vault1_uri] /\
  wire_KeySource (keyVaultUpdateParameters 0 block_without_key_name vault1_uri)
    = Some MicrosoftKeyvault /\
  key_reference <$>
    wire_KeyVaultProperties (keyVaultUpdateParameters 0 block_without_key_name vault1_uri)
    = Some (Some "", Some "v1", Some vault1_uri).
Proof. repeat split; reflexivity. Qed.

(** Beyond what the schema's validators admit: a block with key name "k1"
    and an empty key_vault_id is written as platform-managed, so without the
    required attributes the key name alone does not select the key source. *)
Lemma key_name_alone_does_not_select_key_vault :
  ~ key_source_follows_key_name CreateUpdate1
      declared_without_vault_id (healthy remote_platform) world0.
Proof.
  unfold key_source_follows_key_name. intros H.
  assert (E : update_payloads
                (issued (CreateUpdate1 declared_without_vault_id (healthy remote_platform))
                   world0) = [defaultUpdateParameters]) by reflexivity.
  rewrite E in H. apply Forall_cons in H as [[_ H] _].
  assert (K : wire_KeySource defaultUpdateParameters = Some MicrosoftKeyvault).
  { apply H. by exists block_without_vault_id, []. }
  discriminate K.
Qed.

Lemma write_key_source_by_key_vault_id_witness :
  (exists opts,
     update_payloads
       (issued (CreateUpdate1 declared_without_vault_id (healthy remote_platform)) world0)
       = [opts] /\
     wire_KeySource opts = Some MicrosoftStorage /\
     key_reference <$> wire_KeyVaultProperties opts = Some (None, None, None))
  /\
  (exists opts,
     update_payloads
       (issued (CreateUpdate1 declared_key_vault (healthy remote_key_vault)) world0)
       = [opts] /\
     wire_KeySource opts = Some MicrosoftKeyvault /\
     key_reference <$> wire_KeyVaultProperties opts
       = Some (Some "k1", Some "v1", Some vault1_uri)).
Proof.
  split.
  - apply (proj1 (write_key_source_by_key_vault_id parse_acct1
                    declared_without_vault_id (healthy remote_platform) world0
                    acct1_parsed eq_refl)).
    right. reflexivity.
  - apply (proj2 (write_key_source_by_key_vault_id parse_acct1
                    declared_key_vault (healthy remote_key_vault) world0
                    acct1_parsed eq_refl) block1 [] vault1_uri);
      [reflexivity | discriminate | discriminate | reflexivity].
Defined.

(** The payload delete writes has no blob and file flags. *)
Lemma delete_write_has_no_services :
  ~ Forall (fun opts => blob_and_file_enabled opts = true)
      (update_payloads
         (issued (Delete1 declared_key_vault (healthy remote_key_vault)) world0)).
Proof.
  assert (E : update_payloads
                (issued (Delete1 declared_key_vault (healthy remote_key_vault)) world0)
              = [revertUpdateParameters]) by reflexivity.
  rewrite E. intros H. apply Forall_cons in H as [H _]. discriminate H.
Qed.

Lemma delete_reverts_with_one_update_witness :
  exists opts,
    issued (Delete1 declared_key_vault (healthy remote_key_vault)) world0
      = [AccountsUpdate "G" "acct1" opts] /\
    wire_KeySource opts = Some MicrosoftStorage /\
    wire_KeyVaultProperties opts = None.
Proof.
  exact (proj2 (delete_reverts_with_one_update parse_acct1
                  declared_key_vault (healthy remote_key_vault) world0)
           acct1_parsed eq_refl).
Defined.

(** Create-or-update with a key vault issues the vault lookup, the update and
    the read-back: three remote calls. *)
Lemma create_update_with_key_vault_issues_three_calls :
  ~ length (issued (CreateUpdate1 declared_key_vault (healthy remote_key_vault)) world0) <= 2.
Proof.
  assert (E : length (issued (CreateUpdate1 declared_key_vault (healthy remote_key_vault))
                        world0) = 3) by reflexivity.
  rewrite E. lia.
Qed.

(** A read that finds no remote key-vault-properties leaves a declared block
    in place. *)
Lemma read_keeps_declared_block :
  remote_KeyVaultProperties remote_platform = None /\
  key_vault (fst (fst (Read1 declared_key_vault (healthy remote_platform) world0))) <> [].
Proof. split; [reflexivity | discriminate]. Qed.

Lemma read_without_remote_key_vault_keeps_block_witness :
  fst (Read1 declared_key_vault (healthy remote_platform) world0)
    = (declared_key_vault, None) /\
  key_vault (fst (fst (Read1 declared_key_vault (healthy remote_platform) world0)))
    = [block1].
Proof.
  apply (read_without_remote_key_vault_keeps_block parse_acct1
           declared_key_vault (healthy remote_platform) world0 acct1_parsed remote_platform);
    reflexivity.
Defined.

(** The block read back from the written payload has the resolved URI, not
    the key_vault_uri the configuration held. *)
Lemma read_back_uri_is_not_the_declared_one :
  ~ exists opts,
      update_payloads
        (issued (CreateUpdate1 declared_moved (healthy remote_key_vault)) world0) = [opts] /\
      key_vault_uri <$> read_back opts vault1_id policy1_id = [key_vault_uri block_moved].
Proof.
  intros (opts & E & H).
  assert (E' : update_payloads
                 (issued (CreateUpdate1 declared_moved (healthy remote_key_vault)) world0)
               = [keyVaultUpdateParameters 0 block_moved vault1_uri]) by reflexivity.
  rewrite E' in E. injection E as <-. discriminate H.
Qed.

Lemma write_then_read_back_witness :
  exists opts,
    update_payloads
      (issued (CreateUpdate1 declared_moved (healthy remote_key_vault)) world0) = [opts] /\
    read_back opts vault1_id policy1_id =
      [ {| key_vault_policy_id := policy1_id; key_vault_id := vault1_id;
           key_name := "k1"; key_version := "v1"; key_vault_uri := vault1_uri |} ].
Proof.
  apply (write_then_read_back parse_acct1 declared_moved (healthy remote_key_vault)
           world0 acct1_parsed block_moved [] vault1_uri);
    [reflexivity | reflexivity | discriminate | discriminate | reflexivity].
Defined.

Lemma update_failure_commits_nothing_witness :
  "acct1" = Path_at acct1_parsed "storageAccounts" /\
  fst (CreateUpdate1 declared_key_vault failing_update world0) =
    (declared_key_vault,
     Some (Errorf "Error updating Azure Storage Account Encryption %q: %+v"
             [ArgString "acct1"; ArgError conflict])).
Proof.
  apply (update_failure_commits_nothing parse_acct1 declared_key_vault failing_update
           world0 acct1_parsed "G" "acct1"
           (keyVaultUpdateParameters 0 block1 vault1_uri) conflict);
    [reflexivity | vm_compute; do 2 constructor | reflexivity].
Defined.

Lemma lookup_not_found_is_absent_witness :
  fst (Read1 declared_key_vault
         (failing_lookup 404 (CollaboratorError "404 Not Found")) world0)
    = (SetId declared_key_vault "", None) /\
  fst (ImportState1 declared_handle
         (failing_lookup 500 (CollaboratorError "500 Internal Server Error")) world0)
    = (mkResourceData acct1_id acct1_id [], None,
       Some (Errorf "Error importing the state of AzureRM Storage Account %q: %+v"
               [ArgString "acct1";
                ArgError (CollaboratorError "500 Internal Server Error")])).
Proof.
  split.
  - apply (proj1 (lookup_not_found_is_absent parse_acct1 declared_key_vault
                    (failing_lookup 404 (CollaboratorError "404 Not Found")) world0
                    acct1_parsed
                    {| Response := Some 404; Account_Properties := None |}
                    (CollaboratorError "404 Not Found"))); reflexivity.
  - apply (proj2 (lookup_not_found_is_absent parse_acct1 declared_handle
                    (failing_lookup 500 (CollaboratorError "500 Internal Server Error"))
                    world0 acct1_parsed
                    {| Response := Some 500; Account_Properties := None |}
                    (CollaboratorError "500 Internal Server Error"))); reflexivity.
Defined.

Lemma import_recovers_key_reference_witness :
  let d' :=
    {| Id := acct1_id +:+ "/encryptionSettings";
       storage_account_id := acct1_id;
       key_vault :=
         [ {| key_vault_policy_id := ""; key_vault_id := "";
              key_name := "k1"; key_version := "v1"; key_vault_uri := vault1_uri |} ] |} in
  fst (ImportState1 declared_handle (healthy remote_key_vault) world0)
    = (d', Some [d'], None).
Proof.
  apply (import_recovers_key_reference parse_acct1 declared_handle
           (healthy remote_key_vault) world0 acct1_parsed remote_key_vault
           {| KeyName := Some (mkCell 0 "k1");
              KeyVersion := Some (mkCell 1 "v1");
              KeyVaultURI := Some (mkCell 2 vault1_uri) |});
    reflexivity.
Defined.

Lemma no_vault_id_writes_platform_managed_witness :
  (exists rest,
     issued (CreateUpdate1 declared_without_vault_id (healthy remote_platform)) world0
       = AccountsUpdate "G" "acct1" defaultUpdateParameters :: rest) /\
  wire_KeySource defaultUpdateParameters = Some MicrosoftStorage /\
  forallb (fun c => negb (is_vault_lookup c))
    (issued (CreateUpdate1 declared_without_vault_id (healthy remote_platform)) world0)
    = true /\
  (forall resp,
     Storage_Update (healthy remote_platform) "G" "acct1" defaultUpdateParameters = None ->
     Storage_GetProperties (healthy remote_platform) "G" "acct1" "" = (resp, None) ->
     snd (fst (CreateUpdate1 declared_without_vault_id (healthy remote_platform) world0))
       = None).
Proof.
  apply (no_vault_id_writes_platform_managed parse_acct1 declared_without_vault_id
           (healthy remote_platform) world0 acct1_parsed);
    [reflexivity | right; reflexivity].
Defined.

(** ** Further facts about the projector and the four operations *)

(** What the schema stores when handed the flattened key-vault-properties. *)
Lemma stored_block kvp keyVaultId keyVaultPolicyId :
  block_of_map <$>
    flattenAzureRmStorageAccountKeyVaultProperties (Some kvp) keyVaultId keyVaultPolicyId
  = [ {| key_vault_policy_id := keyVaultPolicyId;
         key_vault_id := keyVaultId;
         key_name := default "" (deref (KeyName kvp));
         key_version := default "" (deref (KeyVersion kvp));
         key_vault_uri := default "" (deref (KeyVaultURI kvp)) |} ].
Proof.
  unfold flattenAzureRmStorageAccountKeyVaultProperties.
  destruct (String.eqb keyVaultId "") eqn:Ei;
    [apply String.eqb_eq in Ei; subst keyVaultId|];
    (destruct (String.eqb keyVaultPolicyId "") eqn:Ep;
       [apply String.eqb_eq in Ep; subst keyVaultPolicyId|]);
    destruct kvp as [[kn|] [kv|] [ku|]]; reflexivity.
Qed.

Section MoreResourceFacts.

Variable ParseAzureResourceID : string -> result ResourceID.

Local Abbreviation Read := (resourceArmStorageAccountEncryptionSettingsRead ParseAzureResourceID).
Local Abbreviation CreateUpdate :=
  (resourceArmStorageAccountEncryptionSettingsCreateUpdate ParseAzureResourceID).
Local Abbreviation Delete := (resourceArmStorageAccountEncryptionSettingsDelete ParseAzureResourceID).
Local Abbreviation ImportState :=
  (resourceArmStorageAccountEncryptionSettingsImportState ParseAzureResourceID).

(** The data and error a read returns, by what the parser and the lookup
    answer; the world it runs in plays no part. *)
Lemma Read_outcome d meta w :
  fst (Read d meta w) =
  match ParseAzureResourceID (storage_account_id d) with
  | Err e => (d, Some e)
  | OK id =>
      let n := Path_at id "storageAccounts" in
      match Storage_GetProperties meta (ResourceGroup id) n "" with
      | (resp, Some cause) =>
          if utils_ResponseWasNotFound (Response resp)
          then (SetId d "", None)
          else (d, Some (Errorf "Error reading the state of AzureRM Storage Account %q: %+v"
                           [ArgString n; ArgError cause]))
      | (resp, None) =>
          match remote_KeyVaultProperties resp with
          | Some kvp =>
              (mkResourceData (Id d) (storage_account_id d)
                 [ {| key_vault_policy_id := Get_key_vault_0 key_vault_policy_id d;
                      key_vault_id := Get_key_vault_0 key_vault_id d;
                      key_name := default "" (deref (KeyName kvp));
                      key_version := default "" (deref (KeyVersion kvp));
                      key_vault_uri := default "" (deref (KeyVaultURI kvp)) |} ], None)
          | None => (d, None)
          end
      end
  end.
Proof.
  destruct (ParseAzureResourceID (storage_account_id d)) as [id|e] eqn:Hp.
  - cbv zeta.
    destruct (Storage_GetProperties meta _ _ _) as [resp [cause|]] eqn:Hg.
    + by rewrite (Read_lookup_failed _ d meta w id resp cause Hp Hg).
    + rewrite (Read_found _ d meta w id resp Hp Hg).
      destruct (remote_KeyVaultProperties resp) as [kvp|]; [|done].
      by rewrite stored_block.
  - by rewrite (Read_unparsed _ d meta w e Hp).
Qed.

(** The data and error create-or-update returns once the update has
    succeeded are those of a read of the data with the id set. *)
Lemma CreateUpdate_outcome d meta w :
  fst (CreateUpdate d meta w) =
  match ParseAzureResourceID (storage_account_id d) with
  | Err e => (d, Some e)
  | OK id =>
      let g := ResourceGroup id in
      let n := Path_at id "storageAccounts" in
      let finish opts :=
        match Storage_Update meta g n opts with
        | Some err =>
            (d, Some (Errorf "Error updating Azure Storage Account Encryption %q: %+v"
                        [ArgString n; ArgError err]))
        | None =>
            fst (Read (SetId d (storage_account_id d +:+ "/encryptionSettings")) meta w)
        end in
      match key_vault d with
      | b :: _ =>
          if String.eqb (key_vault_id b) "" then finish defaultUpdateParameters
          else
            match KeyVault_baseUrl meta (key_vault_id b) with
            | Err err =>
                (d, Some (Errorf "Error looking up Key Vault URI from id %q: %+v"
                            [ArgString (key_vault_id b); ArgError err]))
            | OK uri => finish (keyVaultUpdateParameters (next_addr w) b uri)
            end
      | [] => finish defaultUpdateParameters
      end
  end.
Proof.
  destruct (ParseAzureResourceID (storage_account_id d)) as [id|e] eqn:Hp.
  - cbv zeta.
    destruct (key_vault d) as [|b rest] eqn:Hb.
    + assert (Hk : snd (GetOk_key_vault_0 key_vault_id d) = false).
      { unfold GetOk_key_vault_0, Get_key_vault_0. by rewrite Hb. }
      rewrite (CreateUpdate_platform _ d meta w id Hp Hk).
      destruct (Storage_Update meta _ _ _); [done|].
      by rewrite !Read_outcome.
    + destruct (String.eqb (key_vault_id b) "") eqn:Ei.
      * assert (Hk : snd (GetOk_key_vault_0 key_vault_id d) = false).
        { unfold GetOk_key_vault_0, Get_key_vault_0. rewrite Hb. cbn. by rewrite Ei. }
        rewrite (CreateUpdate_platform _ d meta w id Hp Hk).
        destruct (Storage_Update meta _ _ _); [done|].
        by rewrite !Read_outcome.
      * apply String.eqb_neq in Ei.
        rewrite (CreateUpdate_key_vault _ d meta w id b rest Hp Hb Ei).
        destruct (KeyVault_baseUrl meta _) as [uri|err]; [|done]. cbv zeta.
        destruct (Storage_Update meta _ _ _); [done|].
        by rewrite !Read_outcome.
  - by rewrite (CreateUpdate_unparsed _ d meta w e Hp).
Qed.

Lemma Read_same_identifiers d meta w :
  same_identifiers d (fst (fst (Read d meta w))).
Proof.
  rewrite Read_outcome. unfold same_identifiers.
  destruct (ParseAzureResourceID _) as [id|e]; [|done]. cbv zeta.
  destruct (Storage_GetProperties meta _ _ _) as [resp [cause|]].
  - by destruct (utils_ResponseWasNotFound _).
  - by destruct (remote_KeyVaultProperties resp).
Qed.

Lemma Read_Id d meta w :
  Id (fst (fst (Read d meta w))) = Id d \/ Id (fst (fst (Read d meta w))) = "".
Proof.
  rewrite Read_outcome.
  destruct (ParseAzureResourceID _) as [id|e]; [|by left]. cbv zeta.
  destruct (Storage_GetProperties meta _ _ _) as [resp [cause|]].
  - destruct (utils_ResponseWasNotFound _); [by right|by left].
  - destruct (remote_KeyVaultProperties resp); by left.
Qed.

Lemma Read_twice d meta w w' :
  fst (Read (fst (fst (Read d meta w))) meta w') = fst (Read d meta w).
Proof.
  rewrite (Read_outcome d). rewrite Read_outcome.
  destruct (ParseAzureResourceID (storage_account_id d)) as [id|e] eqn:Hp; cbv zeta.
  - destruct (Storage_GetProperties meta _ _ _) as [resp [cause|]] eqn:Hg.
    + destruct (utils_ResponseWasNotFound _) eqn:Hn; cbn; rewrite Hp, Hg, Hn; done.
    + destruct (remote_KeyVaultProperties resp) as [kvp|] eqn:Hk; cbn;
        rewrite Hp, Hg, Hk; done.
  - cbn. by rewrite Hp.
Qed.

(** Once the read-back is reached, the update has succeeded: the outcome is
    that of the read. *)
Lemma CreateUpdate_read_back d meta w id :
  ParseAzureResourceID (storage_account_id d) = OK id ->
  AccountsGetProperties (ResourceGroup id) (Path_at id "storageAccounts") ""
    ∈ issued (CreateUpdate d meta) w ->
  fst (CreateUpdate d meta w) =
  fst (Read (SetId d (storage_account_id d +:+ "/encryptionSettings")) meta w).
Proof.
  intros Hp Hin.
  destruct (GetOk_key_vault_id_cases d) as [Hk|(b & rest & Hb & Hne)].
  - rewrite (CreateUpdate_platform_calls _ d meta w id Hp Hk) in Hin.
    rewrite (CreateUpdate_platform _ d meta w id Hp Hk).
    destruct (Storage_Update meta _ _ _); [no_such_call Hin|].
    by rewrite !Read_outcome.
  - rewrite (CreateUpdate_key_vault_calls _ d meta w id b rest Hp Hb Hne) in Hin.
    rewrite (CreateUpdate_key_vault _ d meta w id b rest Hp Hb Hne).
    destruct (KeyVault_baseUrl meta _) as [uri|err]; [|no_such_call Hin].
    cbv zeta in *.
    destruct (Storage_Update meta _ _ _); [no_such_call Hin|].
    by rewrite !Read_outcome.
Qed.

Lemma CreateUpdate_same_identifiers d meta w :
  let d' := fst (fst (CreateUpdate d meta w)) in
  same_identifiers d d' /\
  (Id d' = Id d \/ Id d' = "" \/
   Id d' = storage_account_id d +:+ "/encryptionSettings").
Proof.
  cbv zeta. rewrite CreateUpdate_outcome.
  set (d1 := SetId d (storage_account_id d +:+ "/encryptionSettings")).
  assert (Hread : same_identifiers d (fst (fst (Read d1 meta w))) /\
                  (Id (fst (fst (Read d1 meta w))) = Id d \/
                   Id (fst (fst (Read d1 meta w))) = "" \/
                   Id (fst (fst (Read d1 meta w)))
                     = storage_account_id d +:+ "/encryptionSettings")).
  { split.
    - apply (Read_same_identifiers d1 meta w).
    - destruct (Read_Id d1 meta w) as [H|H]; rewrite H; auto. }
  assert (Hsame : same_identifiers d d) by done.
  destruct (ParseAzureResourceID _) as [id|e]; [|auto]. cbv zeta.
  destruct (key_vault d) as [|b rest].
  - destruct (Storage_Update meta _ _ _); auto.
  - destruct (String.eqb (key_vault_id b) "").
    + destruct (Storage_Update meta _ _ _); auto.
    + destruct (KeyVault_baseUrl meta _) as [uri|err]; [|auto].
      destruct (Storage_Update meta _ _ _); auto.
Qed.

(** The payloads create-or-update writes: none, or one. *)
Lemma CreateUpdate_payloads d meta w :
  update_payloads (issued (CreateUpdate d meta) w) =
  match ParseAzureResourceID (storage_account_id d) with
  | Err _ => []
  | OK _ =>
      match key_vault d with
      | b :: _ =>
          if String.eqb (key_vault_id b) "" then [defaultUpdateParameters]
          else
            match KeyVault_baseUrl meta (key_vault_id b) with
            | Err _ => []
            | OK uri => [keyVaultUpdateParameters (next_addr w) b uri]
            end
      | [] => [defaultUpdateParameters]
      end
  end.
Proof.
  destruct (ParseAzureResourceID (storage_account_id d)) as [id|e] eqn:Hp.
  - destruct (key_vault d) as [|b rest] eqn:Hb.
    + assert (Hk : snd (GetOk_key_vault_0 key_vault_id d) = false).
      { unfold GetOk_key_vault_0, Get_key_vault_0. by rewrite Hb. }
      rewrite (CreateUpdate_platform_calls _ d meta w id Hp Hk).
      by destruct (Storage_Update meta _ _ _).
    + destruct (String.eqb (key_vault_id b) "") eqn:Ei.
      * assert (Hk : snd (GetOk_key_vault_0 key_vault_id d) = false).
        { unfold GetOk_key_vault_0, Get_key_vault_0. rewrite Hb. cbn. by rewrite Ei. }
        rewrite (CreateUpdate_platform_calls _ d meta w id Hp Hk).
        by destruct (Storage_Update meta _ _ _).
      * apply String.eqb_neq in Ei.
        rewrite (CreateUpdate_key_vault_calls _ d meta w id b rest Hp Hb Ei).
        destruct (KeyVault_baseUrl meta _) as [uri|err]; [|done]. cbv zeta.
        by destruct (Storage_Update meta _ _ _).
  - by rewrite (issued_nothing _ w _ (CreateUpdate_unparsed _ d meta w e Hp)).
Qed.

(** The written payloads of two runs agree on the wire when the two
    configurations agree on the account and on the first block's key name,
    key version and vault identifier, and the resolver answers alike. *)
Lemma CreateUpdate_payloads_agree d1 d2 m1 m2 w1 w2 :
  storage_account_id d1 = storage_account_id d2 ->
  Get_key_vault_0 key_vault_id d1 = Get_key_vault_0 key_vault_id d2 ->
  Get_key_vault_0 key_name d1 = Get_key_vault_0 key_name d2 ->
  Get_key_vault_0 key_version d1 = Get_key_vault_0 key_version d2 ->
  KeyVault_baseUrl m1 (Get_key_vault_0 key_vault_id d1)
    = KeyVault_baseUrl m2 (Get_key_vault_0 key_vault_id d1) ->
  on_the_wire <$> update_payloads (issued (CreateUpdate d1 m1) w1)
  = on_the_wire <$> update_payloads (issued (CreateUpdate d2 m2) w2).
Proof.
  intros Hs Hi Hn Hv Hu. rewrite !CreateUpdate_payloads, Hs.
  destruct (ParseAzureResourceID _) as [id|e]; [|done].
  unfold Get_key_vault_0 in *.
  destruct (key_vault d1) as [|b1 r1], (key_vault d2) as [|b2 r2]; cbn in *.
  - done.
  - rewrite <- Hi. done.
  - rewrite Hi. done.
  - rewrite <- Hi.
    destruct (String.eqb (key_vault_id b1) ""); [done|].
    rewrite <- Hu.
    destruct (KeyVault_baseUrl m1 _) as [uri|err]; [|done].
    cbn. unfold on_the_wire, keyVaultUpdateParameters; cbn. by rewrite Hn, Hv.
Qed.

Lemma ImportState_outcome d meta w :
  fst (ImportState d meta w) =
  match ParseAzureResourceID (Id d) with
  | Err e => (mkResourceData (Id d) (Id d) (key_vault d), None, Some e)
  | OK saId =>
      let n := Path_at saId "storageAccounts" in
      match Storage_GetProperties meta (ResourceGroup saId) n "" with
      | (resp, Some cause) =>
          if utils_ResponseWasNotFound (Response resp)
          then (mkResourceData "" (Id d) (key_vault d), None, None)
          else (mkResourceData (Id d) (Id d) (key_vault d), None,
                Some (Errorf "Error importing the state of AzureRM Storage Account %q: %+v"
                        [ArgString n; ArgError cause]))
      | (resp, None) =>
          let d' :=
            mkResourceData (Id d +:+ "/encryptionSettings") (Id d)
              match remote_KeyVaultProperties resp with
              | Some kvp =>
                  [ {| key_vault_policy_id := ""; key_vault_id := "";
                       key_name := default "" (deref (KeyName kvp));
                       key_version := default "" (deref (KeyVersion kvp));
                       key_vault_uri := default "" (deref (KeyVaultURI kvp)) |} ]
              | None => key_vault d
              end in
          (d', Some [d'], None)
      end
  end.
Proof.
  destruct (ParseAzureResourceID (Id d)) as [saId|e] eqn:Hp.
  - cbv zeta.
    destruct (Storage_GetProperties meta _ _ _) as [resp [cause|]] eqn:Hg.
    + by rewrite (ImportState_lookup_failed _ d meta w saId resp cause Hp Hg).
    + pose proof (ImportState_found _ d meta w saId resp Hp Hg) as H.
      cbv zeta in H. rewrite H.
      destruct (remote_KeyVaultProperties resp) as [kvp|]; [|done].
      by rewrite stored_block.
  - by rewrite (ImportState_unparsed _ d meta w e Hp).
Qed.

End MoreResourceFacts.

Section Extras.

Variable ParseAzureResourceID : string -> result ResourceID.

Local Abbreviation Read := (resourceArmStorageAccountEncryptionSettingsRead ParseAzureResourceID).
Local Abbreviation CreateUpdate :=
  (resourceArmStorageAccountEncryptionSettingsCreateUpdate ParseAzureResourceID).
Local Abbreviation Delete := (resourceArmStorageAccountEncryptionSettingsDelete ParseAzureResourceID).
Local Abbreviation ImportState :=
  (resourceArmStorageAccountEncryptionSettingsImportState ParseAzureResourceID).

(** X1.  When the storage account identifier does not parse,
    create-or-update, read and delete each return the parser's error as it
    is, issue no remote call, allocate nothing and leave the resource data
    as it was. *)
Theorem unparsed_identifier_stops_operation d meta w e :
  ParseAzureResourceID (storage_account_id d) = Err e ->
  resourceArmStorageAccountEncryptionSettingsCreateUpdate ParseAzureResourceID d meta w
    = (d, Some e, w) /\
  resourceArmStorageAccountEncryptionSettingsRead ParseAzureResourceID d meta w
    = (d, Some e, w) /\
  resourceArmStorageAccountEncryptionSettingsDelete ParseAzureResourceID d meta w
    = (d, Some e, w).
Proof.
  intros Hp. split; [|split].
  - by apply CreateUpdate_unparsed.
  - by apply Read_unparsed.
  - by apply Delete_unparsed.
Qed.

(** X2.  When the handle given to import does not parse, import returns the
    parser's error and no resource, issues no remote call, and the resource
    data already holds the handle as its storage_account_id. *)
Theorem unparsed_handle_stops_import d meta w e :
  ParseAzureResourceID (Id d) = Err e ->
  ImportState d meta w = (mkResourceData (Id d) (Id d) (key_vault d), None, Some e, w) /\
  issued (ImportState d meta) w = [].
Proof.
  intros Hp. split.
  - by apply ImportState_unparsed.
  - rewrite ImportState_calls. by rewrite Hp.
Qed.

(** X3.  On create-or-update with a non-empty key_vault_id, when the vault
    resolver fails the operation returns the error that wraps the vault
    identifier and the cause, the vault lookup is the only remote call (no
    update is sent), and the resource data is as it was. *)
Theorem vault_lookup_failure_prevents_write d meta w id b rest cause :
  ParseAzureResourceID (storage_account_id d) = OK id ->
  key_vault d = b :: rest ->
  key_vault_id b <> "" ->
  KeyVault_baseUrl meta (key_vault_id b) = Err cause ->
  fst (CreateUpdate d meta w) =
    (d, Some (Errorf "Error looking up Key Vault URI from id %q: %+v"
                [ArgString (key_vault_id b); ArgError cause])) /\
  issued (CreateUpdate d meta) w = [VaultBaseUrl (key_vault_id b)].
Proof.
  intros Hp Hb Hne Hu. split.
  - by rewrite (CreateUpdate_key_vault _ d meta w id b rest Hp Hb Hne), Hu.
  - by rewrite (CreateUpdate_key_vault_calls _ d meta w id b rest Hp Hb Hne), Hu.
Qed.

(** X4.  On create-or-update, when the read-back lookup is reached and
    fails: a not-found response makes the operation return no error with the
    resource id cleared; any other failure makes it return the read error
    while the resource id is already set to the account identifier followed
    by "/encryptionSettings". *)
Theorem read_back_failure_after_update d meta w id resp cause :
  ParseAzureResourceID (storage_account_id d) = OK id ->
  AccountsGetProperties (ResourceGroup id) (Path_at id "storageAccounts") ""
    ∈ issued (CreateUpdate d meta) w ->
  Storage_GetProperties meta (ResourceGroup id) (Path_at id "storageAccounts") ""
    = (resp, Some cause) ->
  fst (CreateUpdate d meta w) =
  if utils_ResponseWasNotFound (Response resp)
  then (SetId d "", None)
  else (SetId d (storage_account_id d +:+ "/encryptionSettings"),
        Some (Errorf "Error reading the state of AzureRM Storage Account %q: %+v"
                [ArgString (Path_at id "storageAccounts"); ArgError cause])).
Proof.
  intros Hp Hin Hg.
  rewrite (CreateUpdate_read_back _ d meta w id Hp Hin), Read_outcome. cbn.
  rewrite Hp. cbv zeta. rewrite Hg.
  by destruct (utils_ResponseWasNotFound _).
Qed.

(** X5.  On create-or-update, when the read-back lookup is reached and
    succeeds, the operation returns no error; the resource id is the account
    identifier followed by "/encryptionSettings"; and the key_vault block is
    the declared one when the remote state has no key-vault-properties, and
    otherwise a single block with the declared key_vault_id and
    key_vault_policy_id and the remote key name, version and URI. *)
Theorem create_update_result_on_success d meta w id resp :
  ParseAzureResourceID (storage_account_id d) = OK id ->
  AccountsGetProperties (ResourceGroup id) (Path_at id "storageAccounts") ""
    ∈ issued (CreateUpdate d meta) w ->
  Storage_GetProperties meta (ResourceGroup id) (Path_at id "storageAccounts") ""
    = (resp, None) ->
  fst (CreateUpdate d meta w) =
  (mkResourceData (storage_account_id d +:+ "/encryptionSettings") (storage_account_id d)
     match remote_KeyVaultProperties resp with
     | Some kvp => [refreshed_block d kvp]
     | None => key_vault d
     end, None).
Proof.
  intros Hp Hin Hg.
  rewrite (CreateUpdate_read_back _ d meta w id Hp Hin), Read_outcome. cbn.
  rewrite Hp. cbv zeta. rewrite Hg.
  by destruct (remote_KeyVaultProperties resp).
Qed.

(** X6.  Whatever the remote side answers, read leaves the
    storage_account_id and the first block's key_vault_id and
    key_vault_policy_id as they were, and the resource id is either kept or
    cleared. *)
Theorem read_keeps_identifiers d meta w :
  same_identifiers d (fst (fst (Read d meta w))) /\
  (Id (fst (fst (Read d meta w))) = Id d \/ Id (fst (fst (Read d meta w))) = "").
Proof.
  split; [apply Read_same_identifiers | apply Read_Id].
Qed.

(** X7.  Whatever the remote side answers, create-or-update leaves the
    storage_account_id and the first block's key_vault_id and
    key_vault_policy_id as they were, and the resource id is kept, cleared,
    or set to the account identifier followed by "/encryptionSettings". *)
Theorem create_update_keeps_identifiers d meta w :
  let d' := fst (fst (CreateUpdate d meta w)) in
  same_identifiers d d' /\
  (Id d' = Id d \/ Id d' = "" \/
   Id d' = storage_account_id d +:+ "/encryptionSettings").
Proof. apply CreateUpdate_same_identifiers. Qed.

(** X8.  On read, when the lookup succeeds and the remote state has
    key-vault-properties, the key_vault attribute becomes a single block: the
    prior first block's key_vault_id and key_vault_policy_id (empty when
    there was no block), and the remote key name, version and URI, a nil
    pointer read as the empty string; the resource id and storage_account_id
    are kept and no error is returned. *)
Theorem read_refreshes_block d meta w id resp kvp :
  ParseAzureResourceID (storage_account_id d) = OK id ->
  Storage_GetProperties meta (ResourceGroup id) (Path_at id "storageAccounts") ""
    = (resp, None) ->
  remote_KeyVaultProperties resp = Some kvp ->
  fst (Read d meta w) =
  (mkResourceData (Id d) (storage_account_id d) [refreshed_block d kvp], None).
Proof.
  intros Hp Hg Hk. rewrite Read_outcome, Hp. cbv zeta. by rewrite Hg, Hk.
Qed.

(** X9.  Read is idempotent: reading again, against the same remote
    answers, the data a read returned gives the same data and the same
    error, whatever the first read did. *)
Theorem read_is_idempotent d meta w w' :
  let read := resourceArmStorageAccountEncryptionSettingsRead ParseAzureResourceID in
  fst (read (fst (fst (read d meta w))) meta w') = fst (read d meta w).
Proof. apply Read_twice. Qed.

(** X10.  Read and import never touch the remote state: every remote call
    they issue is a properties lookup, so no update, create, delete or vault
    lookup is ever sent. *)
Theorem read_and_import_only_look_up d meta w :
  forallb is_properties_lookup (issued (Read d meta) w) = true /\
  forallb is_properties_lookup (issued (ImportState d meta) w) = true.
Proof.
  rewrite Read_calls, ImportState_calls.
  split; by destruct (ParseAzureResourceID _).
Qed.

(** X11.  Delete returns the resource data exactly as given in every case
    (it does not clear the resource id itself); with a parsed identifier it
    returns no error when the update succeeds and the error wrapping the
    account name and the cause when the update fails. *)
Theorem delete_leaves_resource_data d meta w :
  fst (fst (Delete d meta w)) = d /\
  (forall id,
     ParseAzureResourceID (storage_account_id d) = OK id ->
     snd (fst (Delete d meta w)) =
     match Storage_Update meta (ResourceGroup id) (Path_at id "storageAccounts")
             revertUpdateParameters with
     | Some cause =>
         Some (Errorf "Error updating Azure Storage Account Encryption %q: %+v"
                 [ArgString (Path_at id "storageAccounts"); ArgError cause])
     | None => None
     end).
Proof.
  split.
  - destruct (ParseAzureResourceID (storage_account_id d)) as [id|e] eqn:Hp.
    + by rewrite (Delete_run _ d meta w id Hp).
    + by rewrite (Delete_unparsed _ d meta w e Hp).
  - intros id Hp. rewrite (Delete_run _ d meta w id Hp). cbn.
    by destruct (Storage_Update meta _ _ _).
Qed.

(** X12.  When import returns no error, a read of the data it produced,
    against the same remote answers, changes nothing and returns no error. *)
Theorem read_after_import_changes_nothing d meta w w' :
  let import := resourceArmStorageAccountEncryptionSettingsImportState ParseAzureResourceID in
  let read := resourceArmStorageAccountEncryptionSettingsRead ParseAzureResourceID in
  snd (fst (import d meta w)) = None ->
  let d' := fst (fst (fst (import d meta w))) in
  fst (read d' meta w') = (d', None).
Proof.
  cbv zeta. rewrite ImportState_outcome, Read_outcome.
  destruct (ParseAzureResourceID (Id d)) as [saId|e] eqn:Hp; cbv zeta; [|done].
  destruct (Storage_GetProperties meta _ _ _) as [resp [cause|]] eqn:Hg.
  - destruct (utils_ResponseWasNotFound _) eqn:Hn; [|done].
    intros _. cbn. by rewrite Hp, Hg, Hn.
  - intros _. cbn. rewrite Hp, Hg.
    by destruct (remote_KeyVaultProperties resp).
Qed.

(** X13.  When create-or-update returns no error, a read of the data it
    produced, against the same remote answers, changes nothing and returns
    no error. *)
Theorem read_after_create_update_changes_nothing d meta w w' :
  let create := resourceArmStorageAccountEncryptionSettingsCreateUpdate ParseAzureResourceID in
  let read := resourceArmStorageAccountEncryptionSettingsRead ParseAzureResourceID in
  snd (fst (create d meta w)) = None ->
  let d' := fst (fst (create d meta w)) in
  fst (read d' meta w') = (d', None).
Proof.
  cbv zeta. rewrite CreateUpdate_outcome.
  set (d1 := SetId d (storage_account_id d +:+ "/encryptionSettings")).
  assert (Hread : snd (fst (Read d1 meta w)) = None ->
                  fst (Read (fst (fst (Read d1 meta w))) meta w')
                  = (fst (fst (Read d1 meta w)), None)).
  { intros H. rewrite (Read_twice _ d1 meta w w').
    destruct (fst (Read d1 meta w)) as [d' e']. cbn in *. by subst e'. }
  destruct (ParseAzureResourceID _) as [id|e]; [|done]. cbv zeta.
  destruct (key_vault d) as [|b rest].
  - destruct (Storage_Update meta _ _ _); [done|]. apply Hread.
  - destruct (String.eqb (key_vault_id b) "").
    + destruct (Storage_Update meta _ _ _); [done|]. apply Hread.
    + destruct (KeyVault_baseUrl meta _) as [uri|err]; [|done].
      destruct (Storage_Update meta _ _ _); [done|]. apply Hread.
Qed.

(** X14.  The payload create-or-update writes depends only on the
    storage_account_id, on the first key_vault block's key_vault_id, key_name
    and key_version, and on the resolver's answer for that key_vault_id:
    two runs that agree on these write the same payload on the wire, whatever
    the resource id, the key_vault_policy_id, the recorded key_vault_uri,
    further blocks and the rest of the remote side are. *)
Theorem payload_determined_by_key_fields d1 d2 m1 m2 w1 w2 :
  storage_account_id d1 = storage_account_id d2 ->
  Get_key_vault_0 key_vault_id d1 = Get_key_vault_0 key_vault_id d2 ->
  Get_key_vault_0 key_name d1 = Get_key_vault_0 key_name d2 ->
  Get_key_vault_0 key_version d1 = Get_key_vault_0 key_version d2 ->
  KeyVault_baseUrl m1 (Get_key_vault_0 key_vault_id d1)
    = KeyVault_baseUrl m2 (Get_key_vault_0 key_vault_id d1) ->
  on_the_wire <$> update_payloads (issued (CreateUpdate d1 m1) w1)
  = on_the_wire <$> update_payloads (issued (CreateUpdate d2 m2) w2).
Proof. apply CreateUpdate_payloads_agree. Qed.

(** X15.  Create-or-update repeats its payload: run again on the data it
    returned, against the same remote side, it writes the same payload on
    the wire, provided the first block's key name and key version came back
    as they were declared. *)
Theorem create_update_repeats_its_payload d meta w w' :
  let d' := fst (fst (CreateUpdate d meta w)) in
  Get_key_vault_0 key_name d' = Get_key_vault_0 key_name d ->
  Get_key_vault_0 key_version d' = Get_key_vault_0 key_version d ->
  on_the_wire <$> update_payloads (issued (CreateUpdate d' meta) w')
  = on_the_wire <$> update_payloads (issued (CreateUpdate d meta) w).
Proof.
  cbv zeta. intros Hn Hv.
  destruct (CreateUpdate_same_identifiers ParseAzureResourceID d meta w)
    as [(Hs & Hi & _) _].
  by apply CreateUpdate_payloads_agree.
Qed.

End Extras.

(** X16.  The map flatten builds for non-nil key-vault-properties: it is the
    only element returned; key_vault_id and key_vault_policy_id are present
    exactly when the carried identifier is non-empty; key_name, key_version
    and key_vault_uri are present exactly when the remote pointer is non-nil;
    and no other key is present. *)
Theorem flatten_lookup kvp keyVaultId keyVaultPolicyId :
  exists m : gmap string string,
    flattenAzureRmStorageAccountKeyVaultProperties (Some kvp) keyVaultId keyVaultPolicyId
      = [m] /\
    m !! "key_vault_id" = (if String.eqb keyVaultId "" then None else Some keyVaultId) /\
    m !! "key_vault_policy_id"
      = (if String.eqb keyVaultPolicyId "" then None else Some keyVaultPolicyId) /\
    m !! "key_name" = deref (KeyName kvp) /\
    m !! "key_version" = deref (KeyVersion kvp) /\
    m !! "key_vault_uri" = deref (KeyVaultURI kvp) /\
    (forall k, k ∉ key_vault_attributes -> m !! k = None).
Proof.
  unfold flattenAzureRmStorageAccountKeyVaultProperties.
  eexists. split; [reflexivity|].
  destruct (String.eqb keyVaultId ""), (String.eqb keyVaultPolicyId ""),
    kvp as [[kn|] [kv|] [ku|]]; cbn -[lookup insert];
    split_and!; try reflexivity;
    intros k Hk; unfold key_vault_attributes in Hk;
    repeat (apply not_elem_of_cons in Hk as [? Hk]);
    rewrite ?lookup_insert_ne by done; apply lookup_empty.
Qed.

(** X17.  What the schema stores when handed flatten's result: nothing for
    nil key-vault-properties; otherwise one block whose key_vault_id and
    key_vault_policy_id are the carried identifiers, unchanged even when
    empty, and whose key fields are the remote strings, a nil pointer read
    as the empty string. *)
Theorem flatten_then_store kvp keyVaultId keyVaultPolicyId :
  block_of_map <$>
    flattenAzureRmStorageAccountKeyVaultProperties kvp keyVaultId keyVaultPolicyId
  = match kvp with
    | None => []
    | Some k =>
        [ {| key_vault_policy_id := keyVaultPolicyId;
             key_vault_id := keyVaultId;
             key_name := default "" (deref (KeyName k));
             key_version := default "" (deref (KeyVersion k));
             key_vault_uri := default "" (deref (KeyVaultURI k)) |} ]
    end.
Proof.
  destruct kvp as [k|]; [apply stored_block | reflexivity].
Qed.

(** X18.  Expand reads the first key_vault block only: with no block the
    three pointers are nil; with a block the key name and key version point
    to the block's strings, at distinct addresses, and the vault URI is nil.
    It issues no remote call. *)
Theorem expand_reads_first_block d w :
  let kvp := fst (expandAzureRmStorageAccountKeyVaultProperties d w) in
  let w' := snd (expandAzureRmStorageAccountKeyVaultProperties d w) in
  key_reference kvp =
    match key_vault d with
    | [] => (None, None, None)
    | b :: _ => (Some (key_name b), Some (key_version b), None)
    end /\
  (key_vault d <> [] -> ptr_eqb (KeyName kvp) (KeyVersion kvp) = false) /\
  calls w' = calls w.
Proof.
  cbv zeta. unfold expandAzureRmStorageAccountKeyVaultProperties.
  destruct (key_vault d) as [|b rest]; cbn; [done|].
  repeat split. intros _. apply Nat.eqb_neq. lia.
Qed.

Section MoreExtras.

Variable ParseAzureResourceID : string -> result ResourceID.

Local Abbreviation Read := (resourceArmStorageAccountEncryptionSettingsRead ParseAzureResourceID).
Local Abbreviation CreateUpdate :=
  (resourceArmStorageAccountEncryptionSettingsCreateUpdate ParseAzureResourceID).

(** X19.  From the wire to the resource data and back: after a read has
    stored remote key-vault-properties, expand yields non-nil pointers to the
    remote key name and key version, a remote nil pointer having become the
    empty string, and a nil vault URI: the URI is never taken from the
    resource data. *)
Theorem expand_after_read d meta w w' id resp kvp :
  ParseAzureResourceID (storage_account_id d) = OK id ->
  Storage_GetProperties meta (ResourceGroup id) (Path_at id "storageAccounts") ""
    = (resp, None) ->
  remote_KeyVaultProperties resp = Some kvp ->
  key_reference
    (fst (expandAzureRmStorageAccountKeyVaultProperties (fst (fst (Read d meta w))) w'))
  = (Some (default "" (deref (KeyName kvp))),
     Some (default "" (deref (KeyVersion kvp))), None).
Proof.
  intros Hp Hg Hk. rewrite Read_outcome, Hp. cbv zeta. by rewrite Hg, Hk.
Qed.

(** X20.  With a parsed identifier, create-or-update issues its remote calls
    in a fixed order and stops at the first failure: the vault lookup, made
    exactly when a non-empty key_vault_id is declared, and nothing after it
    if it fails; then the update, and nothing after it if it fails; then the
    read-back lookup; the last two on the account the identifier names.
    Whenever the run stops before the read-back, an error is returned. *)
Theorem create_update_calls_in_order d meta w id :
  ParseAzureResourceID (storage_account_id d) = OK id ->
  let g := ResourceGroup id in
  let n := Path_at id "storageAccounts" in
  let keyVaultId := Get_key_vault_0 key_vault_id d in
  exists opts,
    issued (CreateUpdate d meta) w =
      (if snd (GetOk_key_vault_0 key_vault_id d)
       then VaultBaseUrl keyVaultId ::
            match KeyVault_baseUrl meta keyVaultId with
            | Err _ => []
            | OK _ => update_then_read_back meta g n opts
            end
       else update_then_read_back meta g n opts) /\
    (last (issued (CreateUpdate d meta) w) <> Some (AccountsGetProperties g n "") ->
     snd (fst (CreateUpdate d meta w)) <> None).
Proof.
  intros Hp. cbv zeta. unfold update_then_read_back.
  destruct (GetOk_key_vault_id_cases d) as [Hk|(b & rest & Hb & Hne)].
  - rewrite (CreateUpdate_platform_calls _ d meta w id Hp Hk), Hk.
    rewrite (CreateUpdate_platform _ d meta w id Hp Hk).
    exists defaultUpdateParameters. split; [done|].
    destruct (Storage_Update meta _ _ _); [done|]. intros H. by destruct H.
  - rewrite (CreateUpdate_key_vault_calls _ d meta w id b rest Hp Hb Hne).
    rewrite (CreateUpdate_key_vault _ d meta w id b rest Hp Hb Hne).
    unfold GetOk_key_vault_0, Get_key_vault_0. rewrite Hb. cbn.
    apply String.eqb_neq in Hne. rewrite Hne. cbn.
    destruct (KeyVault_baseUrl meta _) as [uri|err]; cbv zeta.
    + exists (keyVaultUpdateParameters (next_addr w) b uri). split; [done|].
      destruct (Storage_Update meta _ _ _); [done|]. intros H. by destruct H.
    + exists defaultUpdateParameters. done.
Qed.

End MoreExtras.

(** ** The further facts at the scenarios *)

Lemma unparsed_identifier_stops_operation_witness :
  let e := Errorf "Cannot parse Azure ID: %s" [ArgString "acct1"] in
  let meta := healthy remote_platform in
  CreateUpdate1 declared_malformed meta world0 = (declared_malformed, Some e, world0) /\
  Read1 declared_malformed meta world0 = (declared_malformed, Some e, world0) /\
  Delete1 declared_malformed meta world0 = (declared_malformed, Some e, world0).
Proof.
  apply (unparsed_identifier_stops_operation parse_acct1 declared_malformed
           (healthy remote_platform) world0). reflexivity.
Defined.

Lemma unparsed_handle_stops_import_witness :
  let e := Errorf "Cannot parse Azure ID: %s" [ArgString "stale"] in
  ImportState1 declared_malformed (healthy remote_platform) world0
    = (mkResourceData "stale" "stale" [block1], None, Some e, world0) /\
  issued (ImportState1 declared_malformed (healthy remote_platform)) world0 = [].
Proof.
  apply (unparsed_handle_stops_import parse_acct1 declared_malformed
           (healthy remote_platform) world0). reflexivity.
Defined.

Lemma vault_lookup_failure_prevents_write_witness :
  fst (CreateUpdate1 declared_key_vault failing_vault world0) =
    (declared_key_vault,
     Some (Errorf "Error looking up Key Vault URI from id %q: %+v"
             [ArgString vault1_id; ArgError vault_gone])) /\
  issued (CreateUpdate1 declared_key_vault failing_vault) world0 = [VaultBaseUrl vault1_id].
Proof.
  apply (vault_lookup_failure_prevents_write parse_acct1 declared_key_vault failing_vault
           world0 acct1_parsed block1 [] vault_gone);
    [reflexivity | reflexivity | discriminate | reflexivity].
Defined.

Lemma read_back_failure_after_update_witness :
  fst (CreateUpdate1 declared_plain
         (failing_lookup 500 (CollaboratorError "500 Internal Server Error")) world0) =
    (SetId declared_plain (acct1_id +:+ "/encryptionSettings"),
     Some (Errorf "Error reading the state of AzureRM Storage Account %q: %+v"
             [ArgString "acct1";
              ArgError (CollaboratorError "500 Internal Server Error")])).
Proof.
  apply (read_back_failure_after_update parse_acct1 declared_plain
           (failing_lookup 500 (CollaboratorError "500 Internal Server Error")) world0
           acct1_parsed {| Response := Some 500; Account_Properties := None |}
           (CollaboratorError "500 Internal Server Error"));
    [reflexivity | vm_compute; do 2 constructor | reflexivity].
Defined.

Lemma create_update_result_on_success_witness :
  fst (CreateUpdate1 declared_key_vault (healthy remote_partial) world0) =
    (mkResourceData (acct1_id +:+ "/encryptionSettings") acct1_id
       [ {| key_vault_policy_id := policy1_id; key_vault_id := vault1_id;
            key_name := "k9"; key_version := ""; key_vault_uri := "" |} ], None).
Proof.
  apply (create_update_result_on_success parse_acct1 declared_key_vault
           (healthy remote_partial) world0 acct1_parsed remote_partial);
    [reflexivity | vm_compute; do 3 constructor | reflexivity].
Defined.

Lemma read_refreshes_block_witness :
  fst (Read1 declared_moved (healthy remote_partial) world0) =
    (mkResourceData (acct1_id +:+ "/encryptionSettings") acct1_id
       [ {| key_vault_policy_id := policy1_id; key_vault_id := vault1_id;
            key_name := "k9"; key_version := ""; key_vault_uri := "" |} ], None).
Proof.
  apply (read_refreshes_block parse_acct1 declared_moved (healthy remote_partial) world0
           acct1_parsed remote_partial
           {| KeyName := Some (mkCell 0 "k9"); KeyVersion := None; KeyVaultURI := None |});
    reflexivity.
Defined.

Lemma delete_leaves_resource_data_witness :
  snd (fst (Delete1 declared_moved failing_update world0)) =
    Some (Errorf "Error updating Azure Storage Account Encryption %q: %+v"
            [ArgString "acct1"; ArgError conflict]).
Proof.
  exact (proj2 (delete_leaves_resource_data parse_acct1 declared_moved failing_update world0)
           acct1_parsed eq_refl).
Defined.

Lemma read_after_import_changes_nothing_witness :
  let d' := fst (fst (fst (ImportState1 declared_handle (healthy remote_key_vault) world0))) in
  fst (Read1 d' (healthy remote_key_vault) world0) = (d', None).
Proof.
  apply (read_after_import_changes_nothing parse_acct1 declared_handle
           (healthy remote_key_vault) world0 world0). reflexivity.
Defined.

Lemma read_after_create_update_changes_nothing_witness :
  let d' := fst (fst (CreateUpdate1 declared_key_vault (healthy remote_partial) world0)) in
  fst (Read1 d' (healthy remote_partial) world0) = (d', None).
Proof.
  apply (read_after_create_update_changes_nothing parse_acct1 declared_key_vault
           (healthy remote_partial) world0 world0). reflexivity.
Defined.

Lemma payload_determined_by_key_fields_witness :
  on_the_wire <$>
    update_payloads (issued (CreateUpdate1 declared_key_vault (healthy remote_platform)) world0)
  = on_the_wire <$>
    update_payloads
      (issued (CreateUpdate1 declared_moved failing_update) (mkWorld 7 [VaultBaseUrl "x"])).
Proof.
  apply (payload_determined_by_key_fields parse_acct1 declared_key_vault declared_moved
           (healthy remote_platform) failing_update world0 (mkWorld 7 [VaultBaseUrl "x"]));
    reflexivity.
Defined.

Lemma create_update_repeats_its_payload_witness :
  let d' := fst (fst (CreateUpdate1 declared_key_vault (healthy remote_key_vault) world0)) in
  on_the_wire <$>
    update_payloads (issued (CreateUpdate1 d' (healthy remote_key_vault)) (mkWorld 4 []))
  = on_the_wire <$>
    update_payloads (issued (CreateUpdate1 declared_key_vault (healthy remote_key_vault)) world0).
Proof.
  apply (create_update_repeats_its_payload parse_acct1 declared_key_vault
           (healthy remote_key_vault) world0 (mkWorld 4 [])); reflexivity.
Defined.

Lemma flatten_lookup_witness :
  exists m : gmap string string,
    flattenAzureRmStorageAccountKeyVaultProperties
      (Some {| KeyName := Some (mkCell 0 "k9"); KeyVersion := None; KeyVaultURI := None |})
      vault1_id "" = [m] /\
    m !! "key_vault_id" = Some vault1_id /\
    m !! "key_vault_policy_id" = None /\
    m !! "id" = None.
Proof.
  destruct (flatten_lookup
              {| KeyName := Some (mkCell 0 "k9"); KeyVersion := None; KeyVaultURI := None |}
              vault1_id "") as (m & E & Hi & Hp & _ & _ & _ & H).
  exists m. split; [exact E|]. split; [exact Hi|]. split; [exact Hp|].
  apply H. unfold key_vault_attributes.
  repeat (apply not_elem_of_cons; split; [discriminate|]). apply not_elem_of_nil.
Defined.

Lemma expand_reads_first_block_witness :
  ptr_eqb
    (KeyName (fst (expandAzureRmStorageAccountKeyVaultProperties declared_key_vault world0)))
    (KeyVersion (fst (expandAzureRmStorageAccountKeyVaultProperties declared_key_vault world0)))
  = false.
Proof.
  apply (proj1 (proj2 (expand_reads_first_block declared_key_vault world0))).
  discriminate.
Defined.

Lemma expand_after_read_witness :
  key_reference
    (fst (expandAzureRmStorageAccountKeyVaultProperties
            (fst (fst (Read1 declared_moved (healthy remote_partial) world0))) world0))
  = (Some "k9", Some "", None).
Proof.
  apply (expand_after_read parse_acct1 declared_moved (healthy remote_partial) world0 world0
           acct1_parsed remote_partial
           {| KeyName := Some (mkCell 0 "k9"); KeyVersion := None; KeyVaultURI := None |});
    reflexivity.
Defined.

Lemma create_update_calls_in_order_witness :
  exists opts,
    issued (CreateUpdate1 declared_key_vault failing_update) world0 =
      [VaultBaseUrl vault1_id; AccountsUpdate "G" "acct1" opts] /\
    (last (issued (CreateUpdate1 declared_key_vault failing_update) world0)
       <> Some (AccountsGetProperties "G" "acct1" "") ->
     snd (fst (CreateUpdate1 declared_key_vault failing_update world0)) <> None).
Proof.
  apply (create_update_calls_in_order parse_acct1 declared_key_vault failing_update
           world0 acct1_parsed). reflexivity.
Defined.

(** ** Claims C1 and C9 at the scenarios *)


(** Import of a handle below the account: the account "acct1" is looked up,
    yet storage_account_id is the whole handle, not the account's
    identifier, and the resource id is built from the whole handle. *)
Lemma import_keeps_the_whole_handle :
  let d' :=
    fst (fst (fst (resourceArmStorageAccountEncryptionSettingsImportState
                     parse_below_account
                     (mkResourceData blob_service_handle "" [])
                     (healthy remote_key_vault) world0))) in
  issued (resourceArmStorageAccountEncryptionSettingsImportState parse_below_account
            (mkResourceData blob_service_handle "" []) (healthy remote_key_vault)) world0
    = [AccountsGetProperties "G" "acct1" ""] /\
  remote_KeyVaultProperties remote_key_vault <> None /\
  storage_account_id d' = blob_service_handle /\
  storage_account_id d' <> acct1_id /\
  Id d' <> acct1_id +:+ "/encryptionSettings".
Proof.
  cbv zeta. repeat split; try reflexivity; discriminate.
Qed.
